(** * The cloud-provider configuration observer

    A shallow embedding of
    [vendor/github.com/openshift/library-go/pkg/operator/configobserver/cloudprovider/observe_cloudprovider.go]
    and of the library operations it calls, followed by the properties of
    [ObserveCloudProviderNames] and [GetPlatformName].

    Conventions of the embedding:
    - a Go [map[string]interface{}] is a [gmap string value]; a map that may be
      [nil] (the prior configuration, the result of [Pruned]) is an
      [option (gmap string value)] with [None] for [nil];
    - a Go [error] is its message; [nil] is [None];
    - the event recorder and the resource syncer are the two logs of a [World]
      threaded through the calls; a run-time panic is an [outcome]. *)

From Stdlib Require Import String List ZArith.
From stdpp Require Import base option list gmap strings.

Set Warnings "-register-all".
Open Scope string_scope.

(** ** JSON-like values stored in an unstructured configuration *)

(** The dynamic types [runtime.DeepCopyJSONValue] accepts.  A [float64] is kept
    as its bit pattern; no operation below inspects numbers. *)
Inductive value :=
| VNil
| VBool (b : bool)
| VInt (n : Z)
| VFloat (bits : Z)
| VStr (s : string)
| VSlice (l : list value)
| VMap (m : gmap string value).

Definition is_map (v : value) : bool :=
  match v with VMap _ => true | _ => false end.

Definition error := string.

(** Go's [append(s, x)]. *)
Definition append {A} (s : list A) (x : A) : list A := (s ++ [x])%list.

(** ** Panics, events, sync requests *)

Inductive outcome (A : Type) :=
| Returned (a : A)
| Panicked (why : string).
Arguments Returned {A} a.
Arguments Panicked {A} why.

Module events.
Inductive EventType := Normal | Warning.
Record Event := { eventType : EventType; reason : string; message : string }.
End events.

Module resourcesynccontroller.
(** Modelled from the spec: the declaration of [ResourceLocation] is not part
    of the sources; the spec describes it as a (namespace, name) pair whose
    empty value means "do not sync". *)
Record ResourceLocation := { Namespace : string; Name : string }.
Definition emptyLocation : ResourceLocation := {| Namespace := ""; Name := "" |}.
Record SyncRequest := { destination : ResourceLocation; source : ResourceLocation }.
End resourcesynccontroller.

Record World := {
  recorded : list events.Event;
  synced : list resourcesynccontroller.SyncRequest }.

(** State-and-panic monad: a panic keeps the world reached so far. *)
Definition M (A : Type) : Type := World -> outcome A * World.

#[global] Instance M_ret : MRet M := fun A a w => (Returned a, w).

#[global] Instance M_bind : MBind M := fun A B k m w =>
  match m w with
  | (Returned a, w') => k a w'
  | (Panicked why, w') => (Panicked why, w')
  end.

Definition lift {A} (o : outcome A) : M A := fun w => (o, w).

(** [recorder.Warningf] and [recorder.Eventf], with the message already
    formatted. *)
Definition Warningf (reason message : string) : M unit :=
  fun w => (Returned tt,
            {| recorded := recorded w ++
                 [ {| events.eventType := events.Warning;
                      events.reason := reason; events.message := message |} ];
               synced := synced w |}).

Definition Eventf (reason message : string) : M unit :=
  fun w => (Returned tt,
            {| recorded := recorded w ++
                 [ {| events.eventType := events.Normal;
                      events.reason := reason; events.message := message |} ];
               synced := synced w |}).

(** ** k8s.io/apimachinery/pkg/apis/meta/v1/unstructured *)

Module unstructured.

(** The triple [(value, found, err)] the accessors return:
    [(v, true, nil)], [(nil, false, nil)] and [(nil, false, err)]. *)
Inductive accessed (A : Type) :=
| Present (a : A)
| Absent
| Invalid (err : error).
Arguments Present {A} a.
Arguments Absent {A}.
Arguments Invalid {A} err.

(** [jsonPath]: ["." + strings.Join(fields, ".")]. *)
Definition jsonPath (fields : list string) : string :=
  "." ++ String.concat "." fields.

(** The loop of [NestedFieldNoCopy]; [seen] is [fields[:i]].  The error
    text omits the rendering of the offending value. *)
Fixpoint nestedFrom (val : value) (seen fields : list string) : accessed value :=
  match fields with
  | [] => Present val
  | field :: rest =>
      match val with
      | VNil => Absent
      | VMap m =>
          match m !! field with
          | Some v => nestedFrom v (seen ++ [field]) rest
          | None => Absent
          end
      | _ => Invalid (jsonPath (seen ++ [field])
                        ++ " accessor error: expected map[string]interface{}")
      end
  end.

(** Reading a [nil] map finds no key. *)
Definition NestedFieldNoCopy (obj : option (gmap string value))
    (fields : list string) : accessed value :=
  nestedFrom (VMap (default ∅ obj)) [] fields.

(** [NestedFieldCopy] returns [runtime.DeepCopyJSONValue] of the value found.
    On the dynamic types of [value] the copy is a value equal to the
    original, hence the value itself; on any other dynamic type (a
    [[]string], say) [DeepCopyJSONValue] panics, and a configuration that
    holds one is not a [gmap string value]. *)
Definition NestedFieldCopy (obj : option (gmap string value))
    (fields : list string) : accessed value :=
  NestedFieldNoCopy obj fields.

Fixpoint toStrings (l : list value) : option (list string) :=
  match l with
  | [] => Some []
  | VStr s :: l' =>
      match toStrings l' with Some r => Some (s :: r) | None => None end
  | _ => None
  end.

Definition NestedStringSlice (obj : option (gmap string value))
    (fields : list string) : accessed (list string) :=
  match NestedFieldNoCopy obj fields with
  | Present (VSlice l) =>
      match toStrings l with
      | Some strSlice => Present strSlice
      | None => Invalid (jsonPath fields
                  ++ " accessor error: contains non-string key in the slice")
      end
  | Present _ => Invalid (jsonPath fields
                  ++ " accessor error: expected []interface{}")
  | Absent => Absent
  | Invalid err => Invalid err
  end.

(** The loop of [setNestedFieldNoCopy] from [field] on, [rest] being the
    fields after it.  The map is updated in place in Go; the updated map is
    returned here, together with the error. *)
Fixpoint setFrom (m : gmap string value) (v : value)
    (seen : list string) (field : string) (rest : list string)
    : gmap string value * option error :=
  match rest with
  | [] => (<[field := v]> m, None)
  | next :: rest' =>
      match m !! field with
      | Some (VMap valMap) =>
          let '(valMap', err) := setFrom valMap v (seen ++ [field]) next rest' in
          (<[field := VMap valMap']> m, err)
      | Some _ =>
          (m, Some ("value cannot be set because " ++ jsonPath (seen ++ [field])
                      ++ " is not a map[string]interface{}"))
      | None =>
          let '(newVal, err) := setFrom ∅ v (seen ++ [field]) next rest' in
          (<[field := VMap newVal]> m, err)
      end
  end.

(** [fields[:len(fields)-1]] panics on an empty [fields]. *)
Definition setNestedFieldNoCopy (obj : gmap string value) (v : value)
    (fields : list string) : outcome (gmap string value * option error) :=
  match fields with
  | [] => Panicked "slice bounds out of range [:-1]"
  | field :: rest => Returned (setFrom obj v [] field rest)
  end.

Definition SetNestedField (obj : gmap string value) (v : value)
    (fields : list string) : outcome (gmap string value * option error) :=
  setNestedFieldNoCopy obj v fields.

Definition SetNestedStringSlice (obj : gmap string value) (strs : list string)
    (fields : list string) : outcome (gmap string value * option error) :=
  setNestedFieldNoCopy obj (VSlice (map VStr strs)) fields.

End unstructured.

(** ** github.com/openshift/library-go/pkg/operator/configobserver *)

Module configobserver.
Import unstructured.

Fixpoint prunedLoop (obj : option (gmap string value)) (acc : gmap string value)
    (pths : list (list string)) : outcome (gmap string value) :=
  match pths with
  | [] => Returned acc
  | p :: rest =>
      match NestedFieldCopy obj p with
      | Present x =>
          match SetNestedField acc x p with
          | Returned (acc', _) => prunedLoop obj acc' rest
          | Panicked why => Panicked why
          end
      | _ => prunedLoop obj acc rest
      end
  end.

(** Modelled from the spec: [configobserver.Pruned] is not part of the
    sources.  The spec has the result "pruned to only the two caller-supplied
    key paths": every path found in [obj] is copied, in order, into a fresh
    map; a path that is missing or cannot be read is dropped; a [nil] map or
    an empty list of paths is returned as it is. *)
Definition Pruned (obj : option (gmap string value)) (pths : list (list string))
    : outcome (option (gmap string value)) :=
  match obj, pths with
  | None, _ => Returned obj
  | _, [] => Returned obj
  | Some _, _ =>
      match prunedLoop obj ∅ pths with
      | Returned r => Returned (Some r)
      | Panicked why => Panicked why
      end
  end.
End configobserver.

(** ** github.com/openshift/api/config/v1 *)

Module configv1.
Definition GroupName : string := "config.openshift.io".

Definition PlatformType := string.

(** Modelled from the spec: the platform-type constants are declared outside
    the sources; the spec lists the twelve the resolver names (AWS, Azure,
    vSphere, bare-metal, GCP, libvirt, OpenStack, IBM-cloud, none, ovirt,
    kubevirt, Alibaba).  Their values are those of the API package. *)
Definition AWSPlatformType : PlatformType := "AWS".
Definition AzurePlatformType : PlatformType := "Azure".
Definition VSpherePlatformType : PlatformType := "VSphere".
Definition BareMetalPlatformType : PlatformType := "BareMetal".
Definition GCPPlatformType : PlatformType := "GCP".
Definition LibvirtPlatformType : PlatformType := "Libvirt".
Definition OpenStackPlatformType : PlatformType := "OpenStack".
Definition IBMCloudPlatformType : PlatformType := "IBMCloud".
Definition NonePlatformType : PlatformType := "None".
Definition OvirtPlatformType : PlatformType := "oVirt".
Definition KubevirtPlatformType : PlatformType := "KubeVirt".
Definition AlibabaCloudPlatformType : PlatformType := "AlibabaCloud".

Definition definedPlatformTypes : list PlatformType :=
  [ AWSPlatformType; AzurePlatformType; VSpherePlatformType;
    BareMetalPlatformType; GCPPlatformType; LibvirtPlatformType;
    OpenStackPlatformType; IBMCloudPlatformType; NonePlatformType;
    OvirtPlatformType; KubevirtPlatformType; AlibabaCloudPlatformType ].

Record ConfigMapFileReference := { Name : string; Key : string }.
Record InfrastructureSpec := { CloudConfig : ConfigMapFileReference }.
(** Of the platform status only its type is kept; [Type] is a keyword. *)
Record PlatformStatus := { Type_ : PlatformType }.
Record InfrastructureStatus := {
  Platform : PlatformType;
  PlatformStatus_ : option PlatformStatus }.
Record Infrastructure := { Spec : InfrastructureSpec; Status : InfrastructureStatus }.

Record FeatureGate := {
  FeatureSet : string;
  Enabled : list string;
  Disabled : list string }.
End configv1.

Module corev1.
Record ConfigMap := { Data : gmap string string }.
End corev1.

(** ** The listers injected into the observer *)

(** What a lister's [Get] returns: the object with a [nil] error, an error
    [errors.IsNotFound] accepts, or any other error. *)
Inductive lookup (A : Type) :=
| Got (a : A)
| ErrNotFound
| ErrOther (err : error).
Arguments Got {A} a.
Arguments ErrNotFound {A}.
Arguments ErrOther {A} err.

(** The interface [InfrastructureLister]: the answers of the caches behind
    its four methods.  [ConfigMapLister_Get ns name] is
    [ConfigMapLister().ConfigMaps(ns).Get(name)]. *)
Record InfrastructureLister := {
  InfrastructureLister_Get : string -> lookup configv1.Infrastructure;
  FeatureGateLister_Get : string -> lookup configv1.FeatureGate;
  ConfigMapLister_Get : string -> string -> lookup corev1.ConfigMap;
  ResourceSyncer_SyncConfigMap :
    resourcesynccontroller.ResourceLocation ->
    resourcesynccontroller.ResourceLocation -> option error }.

(** A [configobserver.Listers] value either implements [InfrastructureLister]
    or does not. *)
Inductive Listers :=
| OtherListers
| InfrastructureListers (l : InfrastructureLister).

(** [genericListers.(InfrastructureLister)], without the comma-ok form. *)
Definition assertInfrastructureLister (genericListers : Listers)
    : M InfrastructureLister :=
  match genericListers with
  | InfrastructureListers l => mret l
  | OtherListers =>
      lift (Panicked "interface conversion: not cloudprovider.InfrastructureLister")
  end.

(** [listers.ResourceSyncer().SyncConfigMap(destination, source)]: the
    request is recorded, the syncer's answer returned. *)
Definition SyncConfigMap (listers : InfrastructureLister)
    (destination source : resourcesynccontroller.ResourceLocation)
    : M (option error) :=
  fun w => (Returned (ResourceSyncer_SyncConfigMap listers destination source),
            {| recorded := recorded w;
               synced := synced w ++
                 [ {| resourcesynccontroller.destination := destination;
                      resourcesynccontroller.source := source |} ] |}).

(** ** observe_cloudprovider.go *)

Definition cloudProviderConfFilePath (key : string) : string :=
  "/etc/kubernetes/static-pod-resources/configmaps/cloud-config/" ++ key.
Definition configNamespace : string := "openshift-config".
Definition machineSpecifiedConfigNamespace : string := "openshift-config-managed".
Definition machineSpecifiedConfig : string := "kube-cloud-config".

Record cloudProviderObserver := {
  targetNamespaceName : string;
  cloudProviderNamePath : list string;
  cloudProviderConfigPath : list string }.

(** [GetPlatformName]; the recorder is the event log of the world. *)
Definition GetPlatformName (platformType : configv1.PlatformType) : M string :=
  let cloudProvider := "" in
  if String.eqb platformType "" then
    Warningf "ObserveCloudProvidersFailed"
      ("Required status.platform field is not set in infrastructures."
         ++ configv1.GroupName ++ "/cluster") ;;
    mret cloudProvider
  else if String.eqb platformType configv1.AWSPlatformType then mret "aws"
  else if String.eqb platformType configv1.AzurePlatformType then mret "azure"
  else if String.eqb platformType configv1.VSpherePlatformType then mret "vsphere"
  else if String.eqb platformType configv1.BareMetalPlatformType then mret cloudProvider
  else if String.eqb platformType configv1.GCPPlatformType then mret "gce"
  else if String.eqb platformType configv1.LibvirtPlatformType then mret cloudProvider
  else if String.eqb platformType configv1.OpenStackPlatformType then mret "openstack"
  else if String.eqb platformType configv1.IBMCloudPlatformType then mret cloudProvider
  else if String.eqb platformType configv1.NonePlatformType then mret cloudProvider
  else if String.eqb platformType configv1.OvirtPlatformType then mret cloudProvider
  else if String.eqb platformType configv1.KubevirtPlatformType then mret cloudProvider
  else if String.eqb platformType configv1.AlibabaCloudPlatformType then mret cloudProvider
  else
    Warningf "ObserveCloudProvidersFailed"
      ("No recognized cloud provider platform found in infrastructures."
         ++ configv1.GroupName ++ "/cluster.status.platform") ;;
    mret cloudProvider.

Definition validCloudProviders : gset string :=
  list_to_set ["aws"; "azure"; "gce"; "openstack"; "vsphere"].

Section Observer.

(** [cloudprovider.IsCloudProviderExternal] of
    [github.com/openshift/library-go/pkg/cloudprovider], the evaluator of the
    feature gate; it is outside the sources and left abstract. *)
Variable externalEvaluator :
  option configv1.PlatformStatus -> configv1.FeatureGate -> bool * option error.

Definition IsCloudProviderExternal (listers : InfrastructureLister)
    (platform : option configv1.PlatformStatus) : bool * option error :=
  match FeatureGateLister_Get listers "cluster" with
  | ErrNotFound => (false, None)
  | ErrOther err => (false, Some ("could not fetch featuregate: " ++ err))
  | Got featureGate =>
      match externalEvaluator platform featureGate with
      | (_, Some err) =>
          (false, Some ("could not determine if cloud provider is external from featuregate: "
                          ++ err))
      | (external, None) => (external, None)
      end
  end.

(** Lines 79-87: the provider name written into the fresh [observedConfig]. *)
Definition observeProviderName (c : cloudProviderObserver) (external : bool)
    (cloudProvider : string) (observedConfig : gmap string value)
    (errs : list error) : outcome (gmap string value * list error) :=
  if external then
    match unstructured.SetNestedStringSlice observedConfig ["external"]
            (cloudProviderNamePath c) with
    | Returned (observedConfig', Some err) => Returned (observedConfig', append errs err)
    | Returned (observedConfig', None) => Returned (observedConfig', errs)
    | Panicked why => Panicked why
    end
  else if (0 <? String.length cloudProvider)%nat then
    match unstructured.SetNestedStringSlice observedConfig [cloudProvider]
            (cloudProviderNamePath c) with
    | Returned (observedConfig', Some err) => Returned (observedConfig', append errs err)
    | Returned (observedConfig', None) => Returned (observedConfig', errs)
    | Panicked why => Panicked why
    end
  else Returned (observedConfig, errs).

(** Lines 89-101: the source config-map (name, namespace, key), or the
    error of the managed config-map lookup. *)
Definition sourceCloudConfig (listers : InfrastructureLister)
    (infrastructure : configv1.Infrastructure)
    : (string * string * string) + error :=
  let sourceCloudConfigMap :=
    configv1.Name (configv1.CloudConfig (configv1.Spec infrastructure)) in
  let sourceCloudConfigNamespace := configNamespace in
  let sourceCloudConfigKey :=
    configv1.Key (configv1.CloudConfig (configv1.Spec infrastructure)) in
  match ConfigMapLister_Get listers machineSpecifiedConfigNamespace
          machineSpecifiedConfig with
  | Got _ => inl (machineSpecifiedConfig, machineSpecifiedConfigNamespace, "cloud.conf")
  | ErrNotFound =>
      inl (sourceCloudConfigMap, sourceCloudConfigNamespace, sourceCloudConfigKey)
  | ErrOther err => inr err
  end.

(** Lines 103-116: the allow-list and the source location of the sync. *)
Definition sourceLocationFor (cloudProvider sourceCloudConfigNamespace
    sourceCloudConfigMap : string)
    : string * resourcesynccontroller.ResourceLocation :=
  let sourceLocation :=
    {| resourcesynccontroller.Namespace := sourceCloudConfigNamespace;
       resourcesynccontroller.Name := sourceCloudConfigMap |} in
  let sourceCloudConfigMap :=
    if decide (cloudProvider ∈ validCloudProviders) then sourceCloudConfigMap
    else "" in
  let sourceLocation :=
    if (String.length sourceCloudConfigMap =? 0)%nat
    then resourcesynccontroller.emptyLocation else sourceLocation in
  (sourceCloudConfigMap, sourceLocation).

(** The body of [ObserveCloudProviderNames], before the deferred pruning. *)
Definition observeBody (c : cloudProviderObserver) (genericListers : Listers)
    (existingConfig : option (gmap string value))
    : M (option (gmap string value) * list error) :=
  listers ← assertInfrastructureLister genericListers;
  let errs : list error := [] in
  let observedConfig : gmap string value := ∅ in
  match InfrastructureLister_Get listers "cluster" with
  | ErrNotFound =>
      Warningf "ObserveCloudProviderNames"
        ("Required infrastructures." ++ configv1.GroupName ++ "/cluster not found") ;;
      mret (Some observedConfig, errs)
  | ErrOther err => mret (existingConfig, append errs err)
  | Got infrastructure =>
      match IsCloudProviderExternal listers
              (configv1.PlatformStatus_ (configv1.Status infrastructure)) with
      | (_, Some err) =>
          Warningf "ObserveCloudProviderNames"
            ("Could not determine external cloud provider state: " ++ err) ;;
          mret (existingConfig, append errs err)
      | (external, None) =>
          cloudProvider ←
            GetPlatformName (configv1.Platform (configv1.Status infrastructure));
          '(observedConfig, errs) ←
            lift (observeProviderName c external cloudProvider observedConfig errs);
          match sourceCloudConfig listers infrastructure with
          | inr err => mret (existingConfig, append errs err)
          | inl (sourceCloudConfigMap, sourceCloudConfigNamespace,
                 sourceCloudConfigKey) =>
              let '(sourceCloudConfigMap, sourceLocation) :=
                sourceLocationFor cloudProvider sourceCloudConfigNamespace
                  sourceCloudConfigMap in
              syncErr ← SyncConfigMap listers
                {| resourcesynccontroller.Namespace := targetNamespaceName c;
                   resourcesynccontroller.Name := "cloud-config" |}
                sourceLocation;
              match syncErr with
              | Some err => mret (existingConfig, append errs err)
              | None =>
                  if (String.length sourceCloudConfigMap =? 0)%nat then
                    mret (Some observedConfig, errs)
                  else
                    let staticCloudConfFile :=
                      cloudProviderConfFilePath sourceCloudConfigKey in
                    setResult ← lift (unstructured.SetNestedStringSlice observedConfig
                                        [staticCloudConfFile] (cloudProviderConfigPath c));
                    match setResult with
                    | (_, Some err) =>
                        Warningf "ObserveCloudProviderNames"
                          ("Failed setting cloud-config : " ++ err) ;;
                        mret (existingConfig, append errs err)
                    | (observedConfig, None) =>
                        let '(existingCloudConfig, errs) :=
                          match unstructured.NestedStringSlice existingConfig
                                  (cloudProviderConfigPath c) with
                          | unstructured.Present l => (l, errs)
                          | unstructured.Absent => ([], errs)
                          | unstructured.Invalid err => ([], append errs err)
                          end in
                        (if bool_decide (existingCloudConfig = [staticCloudConfFile])
                         then mret tt
                         else Eventf "ObserveCloudProviderNamesChanges"
                                ("CloudProvider config file changed to "
                                   ++ staticCloudConfFile)) ;;
                        mret (Some observedConfig, errs)
                    end
              end
          end
      end
  end.

(** [ObserveCloudProviderNames]: the body, then the deferred
    [configobserver.Pruned] on the named result. *)
Definition ObserveCloudProviderNames (c : cloudProviderObserver)
    (genericListers : Listers) (existingConfig : option (gmap string value))
    : M (option (gmap string value) * list error) :=
  '(ret, errs) ← observeBody c genericListers existingConfig;
  ret ← lift (configobserver.Pruned ret
                [cloudProviderConfigPath c; cloudProviderNamePath c]);
  mret (ret, errs).

End Observer.

Arguments configobserver.Pruned : simpl never.
Arguments GetPlatformName : simpl never.
Arguments observeProviderName : simpl never.
Arguments sourceCloudConfig : simpl never.
Arguments sourceLocationFor : simpl never.
Arguments IsCloudProviderExternal : simpl never.
Arguments unstructured.SetNestedStringSlice : simpl never.
Arguments unstructured.NestedStringSlice : simpl never.
Arguments cloudProviderConfFilePath : simpl never.

(** * Vocabulary of the properties *)

Section Vocabulary.
Import unstructured configobserver.

(** A slice holding exactly the string [s]. *)
Definition slice (s : string) : value := VSlice [VStr s].

(** Every leaf of [m] (a value that is not a map), with its path, satisfies
    [S]. *)
Definition leavesAt (S : list string -> value -> Prop) (m : gmap string value)
    : Prop :=
  forall q x, nestedFrom (VMap m) [] q = Present x -> is_map x = false -> S q x.

(** One round of the loop of [Pruned], for a non-empty path. *)
Definition pruneStep (obj : option (gmap string value)) (acc : gmap string value)
    (p : list string) : gmap string value :=
  match NestedFieldCopy obj p, p with
  | Present x, f :: rest => (setFrom acc x [] f rest).1
  | _, _ => acc
  end.

(** Every leaf of [acc] is a leaf of [obj], at the same path. *)
Definition leavesOf (obj : option (gmap string value)) (acc : gmap string value) : Prop :=
  leavesAt (fun q x => NestedFieldNoCopy obj q = Present x) acc.

(** Every path of [acc] lies on, or below, one of the paths [pths]. *)
Definition withinPaths (pths : list (list string)) (acc : gmap string value) : Prop :=
  forall q v, nestedFrom (VMap acc) [] q = Present v ->
    q = [] \/ exists p, p ∈ pths /\ (p `prefix_of` q \/ q `prefix_of` p).

Definition prunedFirst (obj : option (gmap string value)) (p : list string)
    : gmap string value :=
  pruneStep obj ∅ p.

Definition prunedBoth (obj : option (gmap string value)) (p p' : list string)
    : gmap string value :=
  pruneStep obj (prunedFirst obj p) p'.

(** The world after more events were recorded. *)
Definition recording (w : World) (evs : list events.Event) : World :=
  {| recorded := recorded w ++ evs; synced := synced w |}.

Definition noWorld : World := {| recorded := []; synced := [] |}.

(** The provider [GetPlatformName] resolves, and the events it records. *)
Definition resolvedProvider (platformType : configv1.PlatformType) : string :=
  match (GetPlatformName platformType noWorld).1 with
  | Returned cloudProvider => cloudProvider
  | Panicked _ => ""
  end.

Definition platformWarnings (platformType : configv1.PlatformType) : list events.Event :=
  recorded (GetPlatformName platformType noWorld).2.

Definition isChange (e : events.Event) : Prop :=
  events.reason e = "ObserveCloudProviderNamesChanges".

(** The name written at the provider-name path. *)
Definition writtenName (external : bool) (cloudProvider : string) : string :=
  if external then "external" else cloudProvider.

Definition destinationOf (c : cloudProviderObserver)
    : resourcesynccontroller.ResourceLocation :=
  {| resourcesynccontroller.Namespace := targetNamespaceName c;
     resourcesynccontroller.Name := "cloud-config" |}.

(** The world after one more sync request. *)
Definition syncing (w : World)
    (destination source : resourcesynccontroller.ResourceLocation) : World :=
  {| recorded := recorded w;
     synced := synced w ++
       [ {| resourcesynccontroller.destination := destination;
            resourcesynccontroller.source := source |} ] |}.

Definition warning (reason message : string) : events.Event :=
  {| events.eventType := events.Warning;
     events.reason := reason; events.message := message |}.

Definition changeEvent (staticCloudConfFile : string) : events.Event :=
  {| events.eventType := events.Normal;
     events.reason := "ObserveCloudProviderNamesChanges";
     events.message := "CloudProvider config file changed to " ++ staticCloudConfFile |}.

(** The errors and events of lines 138-146, which read the prior
    configuration. *)
Definition readErrors (c : cloudProviderObserver)
    (existingConfig : option (gmap string value)) : list error :=
  match unstructured.NestedStringSlice existingConfig (cloudProviderConfigPath c) with
  | unstructured.Invalid err => [err]
  | _ => []
  end.

Definition changeEvents (c : cloudProviderObserver)
    (existingConfig : option (gmap string value)) (staticCloudConfFile : string)
    : list events.Event :=
  match unstructured.NestedStringSlice existingConfig (cloudProviderConfigPath c) with
  | unstructured.Present l =>
      if bool_decide (l = [staticCloudConfFile]) then []
      else [changeEvent staticCloudConfFile]
  | _ => [changeEvent staticCloudConfFile]
  end.

(** The world after more events and more sync requests. *)
Definition extend (w : World) (evs : list events.Event)
    (reqs : list resourcesynccontroller.SyncRequest) : World :=
  {| recorded := recorded w ++ evs; synced := synced w ++ reqs |}.

Definition oneString (x : value) : Prop := exists s, x = slice s.

Definition unsetPlatformWarning : events.Event :=
  warning "ObserveCloudProvidersFailed"
    "Required status.platform field is not set in infrastructures.config.openshift.io/cluster".

Definition unrecognizedPlatformWarning : events.Event :=
  warning "ObserveCloudProvidersFailed"
    "No recognized cloud provider platform found in infrastructures.config.openshift.io/cluster.status.platform".

(** The provider-name path holds both the external marker and the name of an
    in-tree provider. *)
Definition bothProviders (l : list string) : Prop :=
  "external" ∈ l /\ exists name, name ∈ l /\ name <> "" /\ name <> "external".

(** The two key paths are independent: neither leads through the other. *)
Definition independentPaths (c : cloudProviderObserver) : Prop :=
  ~ cloudProviderConfigPath c `prefix_of` cloudProviderNamePath c /\
  ~ cloudProviderNamePath c `prefix_of` cloudProviderConfigPath c.

Definition request (destination source : resourcesynccontroller.ResourceLocation)
    : resourcesynccontroller.SyncRequest :=
  {| resourcesynccontroller.destination := destination;
     resourcesynccontroller.source := source |}.

Definition location (namespace name : string) : resourcesynccontroller.ResourceLocation :=
  {| resourcesynccontroller.Namespace := namespace;
     resourcesynccontroller.Name := name |}.

(** The five ways a run ends in a hard error: the infrastructure lookup fails
    with an error other than not-found, the external-provider check fails, the
    managed config-map lookup fails with an error other than not-found, the
    sync fails, or the config-file path cannot be written. *)
Inductive hardError
    (externalEvaluator :
       option configv1.PlatformStatus -> configv1.FeatureGate -> bool * option error)
    (c : cloudProviderObserver) (L : InfrastructureLister) : Prop :=
| infrastructureLookupFails err :
    InfrastructureLister_Get L "cluster" = ErrOther err ->
    hardError externalEvaluator c L
| externalCheckFails infrastructure b err :
    InfrastructureLister_Get L "cluster" = Got infrastructure ->
    IsCloudProviderExternal externalEvaluator L
      (configv1.PlatformStatus_ (configv1.Status infrastructure)) = (b, Some err) ->
    hardError externalEvaluator c L
| managedLookupFails infrastructure err :
    InfrastructureLister_Get L "cluster" = Got infrastructure ->
    ConfigMapLister_Get L machineSpecifiedConfigNamespace machineSpecifiedConfig
      = ErrOther err ->
    hardError externalEvaluator c L
| syncFails infrastructure name namespace key name' sourceLocation err :
    InfrastructureLister_Get L "cluster" = Got infrastructure ->
    sourceCloudConfig L infrastructure = inl (name, namespace, key) ->
    sourceLocationFor
      (resolvedProvider (configv1.Platform (configv1.Status infrastructure)))
      namespace name = (name', sourceLocation) ->
    ResourceSyncer_SyncConfigMap L (destinationOf c) sourceLocation = Some err ->
    hardError externalEvaluator c L
| configPathWriteFails infrastructure external obs errs name namespace key
    name' sourceLocation obs' err :
    InfrastructureLister_Get L "cluster" = Got infrastructure ->
    IsCloudProviderExternal externalEvaluator L
      (configv1.PlatformStatus_ (configv1.Status infrastructure)) = (external, None) ->
    observeProviderName c external
      (resolvedProvider (configv1.Platform (configv1.Status infrastructure))) ∅ []
      = Returned (obs, errs) ->
    sourceCloudConfig L infrastructure = inl (name, namespace, key) ->
    sourceLocationFor
      (resolvedProvider (configv1.Platform (configv1.Status infrastructure)))
      namespace name = (name', sourceLocation) ->
    name' <> "" ->
    unstructured.SetNestedStringSlice obs [cloudProviderConfFilePath key]
      (cloudProviderConfigPath c) = Returned (obs', Some err) ->
    hardError externalEvaluator c L.


End Vocabulary.

(** * Scenarios *)

(** An evaluator of the feature gate: external mode is on when the gate
    enables "ExternalCloudProvider"; the platform status is required. *)
Definition gateEvaluator (platform : option configv1.PlatformStatus)
    (featureGate : configv1.FeatureGate) : bool * option error :=
  match platform with
  | None => (false, Some "platformStatus is required")
  | Some _ =>
      (bool_decide ("ExternalCloudProvider" ∈ configv1.Enabled featureGate), None)
  end.

(** The observer of the API server operator. *)
Definition apiServerObserver : cloudProviderObserver :=
  {| targetNamespaceName := "openshift-kube-apiserver";
     cloudProviderNamePath := ["apiServerArguments"; "cloud-provider"];
     cloudProviderConfigPath := ["apiServerArguments"; "cloud-config"] |}.

Definition infrastructureOf (platformType name key : string) : configv1.Infrastructure :=
  {| configv1.Spec :=
       {| configv1.CloudConfig := {| configv1.Name := name; configv1.Key := key |} |};
     configv1.Status :=
       {| configv1.Platform := platformType;
          configv1.PlatformStatus_ := Some {| configv1.Type_ := platformType |} |} |}.

Definition externalGate : configv1.FeatureGate :=
  {| configv1.FeatureSet := "CustomNoUpgrade";
     configv1.Enabled := ["ExternalCloudProvider"];
     configv1.Disabled := [] |}.

(** A cluster: its infrastructure, its feature gate, whether the managed
    config-map exists, and the answer of the syncer. *)
Definition cluster (infrastructure : lookup configv1.Infrastructure)
    (featureGate : lookup configv1.FeatureGate) (managed : lookup corev1.ConfigMap)
    (syncAnswer : option error) : InfrastructureLister :=
  {| InfrastructureLister_Get := fun _ => infrastructure;
     FeatureGateLister_Get := fun _ => featureGate;
     ConfigMapLister_Get := fun namespace name =>
       if bool_decide (namespace = machineSpecifiedConfigNamespace
                       /\ name = machineSpecifiedConfig)
       then managed else ErrNotFound;
     ResourceSyncer_SyncConfigMap := fun _ _ => syncAnswer |}.

Definition awsCluster : InfrastructureLister :=
  cluster (Got (infrastructureOf "AWS" "cloud-provider-config" "config"))
    ErrNotFound ErrNotFound None.

Definition awsExternalCluster : InfrastructureLister :=
  cluster (Got (infrastructureOf "AWS" "cloud-provider-config" "config"))
    (Got externalGate) ErrNotFound None.

Definition awsExternalBareCluster : InfrastructureLister :=
  cluster (Got (infrastructureOf "AWS" "" "")) (Got externalGate) ErrNotFound None.

Definition bareMetalManagedCluster : InfrastructureLister :=
  cluster (Got (infrastructureOf "BareMetal" "cloud-provider-config" "config"))
    ErrNotFound (Got {| corev1.Data := ∅ |}) None.

Definition unreachableCluster : InfrastructureLister :=
  cluster (ErrOther "connection refused") ErrNotFound ErrNotFound None.

Definition emptyCluster : InfrastructureLister :=
  cluster ErrNotFound ErrNotFound ErrNotFound None.

Definition apiServerArguments (arguments : gmap string value) : gmap string value :=
  {[ "apiServerArguments" := VMap arguments ]}.

Definition awsManagedCluster : InfrastructureLister :=
  cluster (Got (infrastructureOf "AWS" "cloud-provider-config" "config"))
    ErrNotFound (Got {| corev1.Data := ∅ |}) None.

(** What the observer returns for [awsCluster]: both paths written. *)
Definition awsObserved : option (gmap string value) :=
  Some (apiServerArguments
          (<[ "cloud-config" := slice (cloudProviderConfFilePath "config") ]>
             {[ "cloud-provider" := slice "aws" ]})).

(** A prior configuration with a key outside the two key paths. *)
Definition priorWithExtraKey : option (gmap string value) :=
  Some (<[ "servingInfo" := VStr "0.0.0.0:6443" ]>
          (apiServerArguments {[ "cloud-provider" := slice "aws" ]})).

(** A prior configuration whose provider-name path holds both the external
    marker and an in-tree provider. *)
Definition priorWithBothProviders : option (gmap string value) :=
  Some (apiServerArguments
          {[ "cloud-provider" := VSlice [VStr "external"; VStr "aws"] ]}).

(** * Further vocabulary and scenarios *)

Section FurtherVocabulary.
Import unstructured configobserver.

(** [NewCloudProviderObserver]: the observer built from the target namespace
    and the two key paths; the [ObserveConfigFunc] it returns takes the
    listers and the prior configuration, the recorder being the world. *)
Definition NewCloudProviderObserver
    (externalEvaluator :
       option configv1.PlatformStatus -> configv1.FeatureGate -> bool * option error)
    (targetNamespaceName : string)
    (cloudProviderNamePath cloudProviderConfigPath : list string)
    : Listers -> option (gmap string value) ->
      M (option (gmap string value) * list error) :=
  let cloudObserver :=
    {| targetNamespaceName := targetNamespaceName;
       cloudProviderNamePath := cloudProviderNamePath;
       cloudProviderConfigPath := cloudProviderConfigPath |} in
  ObserveCloudProviderNames externalEvaluator cloudObserver.

Definition isWarning (e : events.Event) : Prop :=
  events.eventType e = events.Warning.

(** The "changed" event of line 145, for some key of the config-map. *)
Definition changeNotice (e : events.Event) : Prop :=
  exists key, e = changeEvent (cloudProviderConfFilePath key).

(** A sync source the syncer can act on: the empty location, or a location
    with a name. *)
Definition usableSource (source : resourcesynccontroller.ResourceLocation) : Prop :=
  source = resourcesynccontroller.emptyLocation \/
  resourcesynccontroller.Name source <> "".

(** The effects of one call: at most one sync request, to the fixed
    destination; at most two events, warnings first, then at most one
    "changed" event. *)
Definition boundedEffects (c : cloudProviderObserver) (w w' : World) : Prop :=
  exists warns changes reqs,
    w' = extend w (warns ++ changes) reqs /\
    Forall isWarning warns /\
    Forall changeNotice changes /\
    (length changes <= 1)%nat /\
    (length (warns ++ changes) <= 2)%nat /\
    (reqs = [] \/
     exists source, reqs = [request (destinationOf c) source] /\ usableSource source).

(** The two wrappings of [IsCloudProviderExternal]'s errors. *)
Definition fetchFailure (cause : error) : error :=
  "could not fetch featuregate: " ++ cause.

Definition evaluationFailure (cause : error) : error :=
  "could not determine if cloud provider is external from featuregate: " ++ cause.

Definition externalStateWarning (err : error) : events.Event :=
  warning "ObserveCloudProviderNames"
    ("Could not determine external cloud provider state: " ++ err).

Definition failedSettingWarning (err : error) : events.Event :=
  warning "ObserveCloudProviderNames" ("Failed setting cloud-config : " ++ err).

End FurtherVocabulary.

(** An observer whose config-file path lies below its provider-name path. *)
Definition nestedObserver : cloudProviderObserver :=
  {| targetNamespaceName := "openshift-kube-apiserver";
     cloudProviderNamePath := ["cloud"];
     cloudProviderConfigPath := ["cloud"; "config"] |}.

(** An observer with one key path for both the name and the file. *)
Definition sharedPathObserver : cloudProviderObserver :=
  {| targetNamespaceName := "openshift-kube-apiserver";
     cloudProviderNamePath := ["cloud"];
     cloudProviderConfigPath := ["cloud"] |}.

(** Observers with an empty key path. *)
Definition namelessObserver : cloudProviderObserver :=
  {| targetNamespaceName := "openshift-kube-apiserver";
     cloudProviderNamePath := [];
     cloudProviderConfigPath := ["apiServerArguments"; "cloud-config"] |}.

Definition filelessObserver : cloudProviderObserver :=
  {| targetNamespaceName := "openshift-kube-apiserver";
     cloudProviderNamePath := ["apiServerArguments"; "cloud-provider"];
     cloudProviderConfigPath := [] |}.

(** A cluster whose feature gate cannot be fetched. *)
Definition gatelessCluster : InfrastructureLister :=
  cluster (Got (infrastructureOf "AWS" "cloud-provider-config" "config"))
    (ErrOther "connection refused") ErrNotFound None.

(** An external-mode cluster on bare metal. *)
Definition bareMetalExternalCluster : InfrastructureLister :=
  cluster (Got (infrastructureOf "BareMetal" "" "")) (Got externalGate) ErrNotFound None.

(** A prior configuration whose config-file path holds a string, not a
    slice. *)
Definition priorWithStringConfig : option (gmap string value) :=
  Some (apiServerArguments {[ "cloud-config" := VStr "/etc/cloud.conf" ]}).

(** The world after the observer of the API server ran on [awsCluster],
    from the empty world. *)
Definition awsWorld : World :=
  {| recorded := [changeEvent (cloudProviderConfFilePath "config")];
     synced := [request (destinationOf apiServerObserver)
                  (location configNamespace "cloud-provider-config")] |}.

(** * Facts about nested reads and writes *)

Section NestedFacts.
Import unstructured configobserver.

Lemma nestedFrom_app (p r : list string) : forall (v : value) (seen : list string),
  nestedFrom v seen (p ++ r) =
  match nestedFrom v seen p with
  | Present x => nestedFrom x (seen ++ p) r
  | Absent => Absent
  | Invalid err => Invalid err
  end.
Proof.
  induction p as [|f p IH]; intros v seen; simpl.
  - by rewrite app_nil_r.
  - destruct v as [| | | | | |m]; try done.
    destruct (m !! f) as [x|]; last done.
    rewrite IH. by rewrite <- app_assoc.
Qed.

Lemma nestedFrom_leaf (x : value) (seen r : list string) (y : value) :
  is_map x = false -> nestedFrom x seen r = Present y -> r = [] /\ y = x.
Proof.
  destruct r as [|f r]; simpl.
  - intros _ [= ->]. done.
  - destruct x; try done.
Qed.

Lemma setFrom_empty_ok (rest : list string) : forall (v : value) (seen : list string) (f : string),
  (setFrom ∅ v seen f rest).2 = None.
Proof.
  induction rest as [|g rest IH]; intros v seen f; simpl; first done.
  rewrite lookup_empty.
  specialize (IH v (seen ++ [f])%list g).
  destruct (setFrom ∅ v (seen ++ [f]) g rest). done.
Qed.

Lemma setFrom_err_unchanged (rest : list string) :
  forall (m : gmap string value) (v : value) (seen : list string) (f : string) m' err,
  setFrom m v seen f rest = (m', Some err) -> m' = m.
Proof.
  induction rest as [|g rest IH]; intros m v seen f m' err; simpl; first done.
  destruct (m !! f) as [x|] eqn:Hf.
  - destruct x as [| | | | | |vm]; try by intros [= <- _].
    destruct (setFrom vm v (seen ++ [f]) g rest) as [vm' e] eqn:Hs.
    intros [= <- ->]. apply IH in Hs as ->. by apply insert_id.
  - pose proof (setFrom_empty_ok rest v (seen ++ [f])%list g) as Hok.
    destruct (setFrom ∅ v (seen ++ [f]) g rest) as [nm e]. simpl in Hok. subst e.
    done.
Qed.

Lemma nestedFrom_cons (m : gmap string value) (s : list string) (f : string)
    (q : list string) :
  nestedFrom (VMap m) s (f :: q) =
  match m !! f with Some v => nestedFrom v (s ++ [f]) q | None => Absent end.
Proof. done. Qed.

(** Reading at or below the path just written yields the written value. *)
Lemma nested_setFrom_below (rest : list string) :
  forall (m : gmap string value) (v : value) (seen : list string) (f : string) m'
         (s r : list string),
  setFrom m v seen f rest = (m', None) ->
  nestedFrom (VMap m') s ((f :: rest) ++ r) = nestedFrom v (s ++ f :: rest) r.
Proof.
  induction rest as [|g rest IH]; intros m v seen f m' s r Hset;
    simpl in Hset; rewrite <- app_comm_cons, nestedFrom_cons.
  - injection Hset as <-. by rewrite lookup_insert_eq.
  - destruct (m !! f) as [x|] eqn:Hf.
    + destruct x as [| | | | | |vm]; try done.
      destruct (setFrom vm v (seen ++ [f]) g rest) as [vm' e] eqn:Hs.
      injection Hset as <- ->. rewrite lookup_insert_eq.
      rewrite (IH _ _ _ _ _ (s ++ [f])%list r Hs). by rewrite <- app_assoc.
    + destruct (setFrom ∅ v (seen ++ [f]) g rest) as [nm e] eqn:Hs.
      injection Hset as <- ->. rewrite lookup_insert_eq.
      rewrite (IH _ _ _ _ _ (s ++ [f])%list r Hs). by rewrite <- app_assoc.
Qed.

(** Reading strictly above the path just written yields a map. *)
Lemma nested_setFrom_above (rest : list string) :
  forall (m : gmap string value) (v : value) (seen : list string) (f : string) m'
         (s q r : list string),
  setFrom m v seen f rest = (m', None) ->
  f :: rest = (q ++ r)%list -> r <> [] ->
  exists mm, nestedFrom (VMap m') s q = Present (VMap mm).
Proof.
  induction rest as [|g rest IH]; intros m v seen f m' s q r Hset Hq Hr.
  - destruct q as [|h q]; first by eexists.
    simpl in Hq. injection Hq as -> Hq.
    symmetry in Hq. apply app_eq_nil in Hq as [_ ->]. done.
  - destruct q as [|h q]; first by eexists.
    simpl in Hq. injection Hq as <- Hq.
    simpl in Hset. simpl.
    destruct (m !! f) as [x|] eqn:Hf.
    + destruct x as [| | | | | |vm]; try done.
      destruct (setFrom vm v (seen ++ [f]) g rest) as [vm' e] eqn:Hs.
      injection Hset as <- ->. rewrite lookup_insert_eq.
      by eapply IH.
    + destruct (setFrom ∅ v (seen ++ [f]) g rest) as [nm e] eqn:Hs.
      injection Hset as <- ->. rewrite lookup_insert_eq.
      by eapply IH.
Qed.

(** Reading off the path just written is not affected by the write. *)
Lemma nested_setFrom_aside (rest : list string) :
  forall (m : gmap string value) (v : value) (seen : list string) (f : string) m'
         (s q : list string),
  setFrom m v seen f rest = (m', None) ->
  ~ (f :: rest) `prefix_of` q -> ~ q `prefix_of` (f :: rest) ->
  nestedFrom (VMap m') s q = nestedFrom (VMap m) s q.
Proof.
  induction rest as [|g rest IH]; intros m v seen f m' s q Hset Hpq Hqp.
  - destruct q as [|h q]; first by (exfalso; apply Hqp, prefix_nil).
    simpl in Hset. injection Hset as <-. simpl.
    destruct (decide (h = f)) as [->|Hne].
    + exfalso. apply Hpq. by apply prefix_cons, prefix_nil.
    + by rewrite lookup_insert_ne.
  - destruct q as [|h q]; first by (exfalso; apply Hqp, prefix_nil).
    simpl in Hset. simpl.
    destruct (decide (h = f)) as [->|Hne].
    2:{ destruct (m !! f) as [x|] eqn:Hf.
        - destruct x as [| | | | | |vm]; try done.
          destruct (setFrom vm v (seen ++ [f]) g rest) as [vm' e].
          injection Hset as <- ->. by rewrite lookup_insert_ne.
        - destruct (setFrom ∅ v (seen ++ [f]) g rest) as [nm e].
          injection Hset as <- ->. by rewrite lookup_insert_ne. }
    assert (Hpq' : ~ (g :: rest) `prefix_of` q)
      by (intros H; apply Hpq; by apply prefix_cons).
    assert (Hqp' : ~ q `prefix_of` (g :: rest))
      by (intros H; apply Hqp; by apply prefix_cons).
    destruct (m !! f) as [x|] eqn:Hf.
    + destruct x as [| | | | | |vm]; try done.
      destruct (setFrom vm v (seen ++ [f]) g rest) as [vm' e] eqn:Hs.
      injection Hset as <- ->. rewrite lookup_insert_eq.
      by eapply IH.
    + destruct (setFrom ∅ v (seen ++ [f]) g rest) as [nm e] eqn:Hs.
      injection Hset as <- ->. rewrite lookup_insert_eq.
      rewrite (IH _ _ _ _ _ (s ++ [f])%list q Hs Hpq' Hqp').
      destruct q as [|k q]; first by (exfalso; apply Hqp', prefix_nil).
      simpl. by rewrite lookup_empty.
Qed.

(** A failed write was stopped by a value that is not a map, strictly above
    the path. *)
Lemma setFrom_err_blocked (rest : list string) :
  forall (m : gmap string value) (v : value) (seen : list string) (f : string) m' err
         (s : list string),
  setFrom m v seen f rest = (m', Some err) ->
  exists q r x, f :: rest = (q ++ r)%list /\ r <> [] /\
    nestedFrom (VMap m) s q = Present x /\ is_map x = false.
Proof.
  induction rest as [|g rest IH]; intros m v seen f m' err s; simpl; first done.
  destruct (m !! f) as [x|] eqn:Hf.
  - destruct x as [| | | | | |vm];
      try (intros _; exists [f], (g :: rest); eexists; simpl; rewrite Hf; done).
    destruct (setFrom vm v (seen ++ [f]) g rest) as [vm' e] eqn:Hs.
    intros [= <- ->].
    destruct (IH _ _ _ _ _ _ (s ++ [f])%list Hs) as (q & r & x & Hq & Hr & Hx & Hm).
    exists (f :: q), r, x. simpl. rewrite Hf, Hq. done.
  - pose proof (setFrom_empty_ok rest v (seen ++ [f])%list g) as Hok.
    destruct (setFrom ∅ v (seen ++ [f]) g rest) as [nm e]. simpl in Hok. subst e.
    done.
Qed.

(** Writing back the value already read changes nothing. *)
Lemma setFrom_same (rest : list string) :
  forall (m : gmap string value) (v : value) (seen : list string) (f : string)
         (s : list string),
  nestedFrom (VMap m) s (f :: rest) = Present v ->
  setFrom m v seen f rest = (m, None).
Proof.
  induction rest as [|g rest IH]; intros m v seen f s; simpl.
  - destruct (m !! f) as [x|] eqn:Hf; last done.
    intros [= ->]. by rewrite insert_id.
  - destruct (m !! f) as [x|] eqn:Hf; last done.
    destruct x as [| | | | | |vm]; try done.
    intros H. simpl in IH. rewrite (IH vm v _ g (s ++ [f])%list H).
    by rewrite insert_id.
Qed.

Lemma nestedFrom_empty (s q : list string) (x : value) :
  nestedFrom (VMap ∅) s q = Present x -> q = [] /\ x = VMap ∅.
Proof.
  destruct q as [|f q]; simpl.
  - by intros [= <-].
  - by rewrite lookup_empty.
Qed.

Lemma leavesAt_empty S : leavesAt S ∅.
Proof. intros q x Hq Hx. apply nestedFrom_empty in Hq as [_ ->]. done. Qed.

Lemma leavesAt_mono (S S' : list string -> value -> Prop) m :
  (forall q x, S q x -> S' q x) -> leavesAt S m -> leavesAt S' m.
Proof. intros HS Hm q x Hq Hx. by apply HS, Hm. Qed.

(** The leaves after a write are the old ones and those of the written
    value. *)
Lemma leavesAt_setFrom S m v (f : string) (rest : list string) m' :
  leavesAt S m ->
  (forall r y, nestedFrom v (f :: rest) r = Present y -> is_map y = false ->
               S ((f :: rest) ++ r)%list y) ->
  setFrom m v [] f rest = (m', None) -> leavesAt S m'.
Proof.
  intros Hm Hv Hs q x Hq Hx.
  destruct (decide ((f :: rest) `prefix_of` q)) as [[r ->]|Hpq].
  - rewrite (nested_setFrom_below _ _ _ _ _ _ [] r Hs) in Hq. by apply Hv.
  - destruct (decide (q `prefix_of` (f :: rest))) as [[r Hr]|Hqp].
    + destruct r as [|g r].
      { exfalso. apply Hpq. rewrite Hr, app_nil_r. done. }
      destruct (nested_setFrom_above _ _ _ _ _ _ [] q (g :: r) Hs Hr) as [mm Hmm];
        first done.
      rewrite Hmm in Hq. injection Hq as <-. done.
    + rewrite (nested_setFrom_aside _ _ _ _ _ _ [] q Hs Hpq Hqp) in Hq.
      by apply Hm.
Qed.

End NestedFacts.

(** * Facts about [configobserver.Pruned] *)

Section PrunedFacts.
Import unstructured configobserver.

Lemma prunedLoop_fold (obj : option (gmap string value)) (pths : list (list string)) :
  Forall (fun p => p <> []) pths ->
  forall acc, prunedLoop obj acc pths = Returned (foldl (pruneStep obj) acc pths).
Proof.
  induction 1 as [|p pths Hp _ IH]; intros acc; simpl; first done.
  unfold pruneStep at 2.
  destruct (NestedFieldCopy obj p) as [x| |err]; try apply IH.
  destruct p as [|f rest]; first done. simpl.
  destruct (setFrom acc x [] f rest) as [acc' e]. apply IH.
Qed.

Lemma Pruned_two (obj : option (gmap string value)) (p1 p2 : list string) :
  p1 <> [] -> p2 <> [] ->
  Pruned obj [p1; p2] =
  Returned (match obj with
            | None => None
            | Some _ => Some (pruneStep obj (pruneStep obj ∅ p1) p2)
            end).
Proof.
  intros H1 H2. destruct obj as [E|]; last done.
  unfold Pruned. rewrite prunedLoop_fold; first done.
  by repeat constructor.
Qed.

Lemma leavesOf_empty obj : leavesOf obj ∅.
Proof. apply leavesAt_empty. Qed.

(** A value found in [obj] can always be written into leaves of [obj]. *)
Lemma leavesOf_set_ok obj acc (f : string) (rest : list string) (x : value) :
  leavesOf obj acc -> NestedFieldNoCopy obj (f :: rest) = Present x ->
  (setFrom acc x [] f rest).2 = None.
Proof.
  intros Hsub Hx.
  destruct (setFrom acc x [] f rest) as [acc' [err|]] eqn:Hs; last done.
  exfalso.
  destruct (setFrom_err_blocked _ _ _ _ _ _ _ [] Hs) as (q & r & y & Hq & Hr & Hy & Hm).
  apply (Hsub _ _) in Hy; [|exact Hm].
  unfold NestedFieldNoCopy in Hx, Hy.
  rewrite Hq, nestedFrom_app, Hy in Hx.
  apply nestedFrom_leaf in Hx as [-> _]; done.
Qed.

Lemma pruneStep_absent obj acc p :
  (forall x, NestedFieldNoCopy obj p <> Present x) -> pruneStep obj acc p = acc.
Proof.
  intros H. unfold pruneStep, NestedFieldCopy.
  destruct (NestedFieldNoCopy obj p) as [x| |err]; try done.
  by destruct (H x).
Qed.

Lemma pruneStep_present obj acc (f : string) (rest : list string) (x : value) :
  leavesOf obj acc -> NestedFieldNoCopy obj (f :: rest) = Present x ->
  setFrom acc x [] f rest = (pruneStep obj acc (f :: rest), None).
Proof.
  intros Hsub Hx. unfold pruneStep, NestedFieldCopy. rewrite Hx.
  pose proof (leavesOf_set_ok _ _ _ _ _ Hsub Hx) as Hok.
  destruct (setFrom acc x [] f rest) as [acc' e]. simpl in *. by subst.
Qed.

Lemma pruneStep_cases obj acc p :
  leavesOf obj acc ->
  pruneStep obj acc p = acc \/
  exists f rest x, p = f :: rest /\ NestedFieldNoCopy obj p = Present x /\
    setFrom acc x [] f rest = (pruneStep obj acc p, None).
Proof.
  intros Hsub.
  destruct (NestedFieldNoCopy obj p) as [x| |err] eqn:Hx.
  - destruct p as [|f rest].
    + left. unfold pruneStep, NestedFieldCopy. by rewrite Hx.
    + right. exists f, rest, x. split_and!; try done. by apply pruneStep_present.
  - left. apply pruneStep_absent. by rewrite Hx.
  - left. apply pruneStep_absent. by rewrite Hx.
Qed.

Lemma leavesOf_step obj acc p : leavesOf obj acc -> leavesOf obj (pruneStep obj acc p).
Proof.
  intros Hsub.
  destruct (pruneStep_cases obj acc p Hsub) as [->|(f & rest & x & -> & Hx & Hs)];
    first done.
  eapply leavesAt_setFrom; [exact Hsub| |exact Hs].
  intros r y Hy _. unfold NestedFieldNoCopy in *. by rewrite nestedFrom_app, Hx.
Qed.

Lemma withinPaths_empty pths : withinPaths pths ∅.
Proof. intros q v Hq. apply nestedFrom_empty in Hq as [-> _]. by left. Qed.

Lemma withinPaths_step obj pths acc p :
  p ∈ pths -> leavesOf obj acc -> withinPaths pths acc ->
  withinPaths pths (pruneStep obj acc p).
Proof.
  intros Hp Hsub Hin.
  destruct (pruneStep_cases obj acc p Hsub) as [->|(f & rest & x & -> & Hx & Hs)];
    first done.
  intros q v Hq.
  destruct (decide ((f :: rest) `prefix_of` q)) as [Hpq|Hpq].
  { right. eexists. split; first done. by left. }
  destruct (decide (q `prefix_of` (f :: rest))) as [Hqp|Hqp].
  { right. eexists. split; first done. by right. }
  rewrite (nested_setFrom_aside _ _ _ _ _ _ [] q Hs Hpq Hqp) in Hq.
  by eapply Hin.
Qed.

(** ** The two rounds of [Pruned] on two paths *)

Lemma pruneStep_congr (o o' : option (gmap string value))
    (acc : gmap string value) (p : list string) :
  NestedFieldNoCopy o p = NestedFieldNoCopy o' p ->
  pruneStep o acc p = pruneStep o' acc p.
Proof. intros Heq. unfold pruneStep, NestedFieldCopy. by rewrite Heq. Qed.

(** Copying a path of a map into that map changes nothing. *)
Lemma pruneStep_self (A : gmap string value) (p : list string) :
  pruneStep (Some A) A p = A.
Proof.
  unfold pruneStep, NestedFieldCopy.
  destruct (NestedFieldNoCopy (Some A) p) as [x| |err] eqn:Hx; try done.
  destruct p as [|f rest]; first done.
  change (nestedFrom (VMap A) [] (f :: rest) = Present x) in Hx.
  by rewrite (setFrom_same _ _ _ [] _ _ Hx).
Qed.

Lemma pruneStep_of_empty (p : list string) (acc : gmap string value) :
  p <> [] -> pruneStep (Some ∅) acc p = acc.
Proof.
  intros Hp. apply pruneStep_absent. intros x Hx.
  apply nestedFrom_empty in Hx as [-> _]. done.
Qed.

Lemma leavesOf_first (obj : option (gmap string value)) (p : list string) :
  leavesOf obj (prunedFirst obj p).
Proof. apply leavesOf_step, leavesOf_empty. Qed.

Lemma leavesOf_both (obj : option (gmap string value)) (p p' : list string) :
  leavesOf obj (prunedBoth obj p p').
Proof. apply leavesOf_step, leavesOf_first. Qed.

Lemma withinPaths_both (obj : option (gmap string value)) (p p' : list string) :
  withinPaths [p; p'] (prunedBoth obj p p').
Proof.
  apply withinPaths_step; [apply list_elem_of_further, list_elem_of_here
                          |apply leavesOf_first|].
  apply withinPaths_step; [apply list_elem_of_here|apply leavesOf_empty|].
  apply withinPaths_empty.
Qed.

(** After a successful round, the path holds the copied value. *)
Lemma pruneStep_at (obj : option (gmap string value)) (acc : gmap string value)
    (p : list string) (x : value) :
  p <> [] -> leavesOf obj acc -> NestedFieldNoCopy obj p = Present x ->
  nestedFrom (VMap (pruneStep obj acc p)) [] p = Present x.
Proof.
  intros Hp Hacc Hx. destruct p as [|f rest]; first done.
  pose proof (pruneStep_present obj acc f rest x Hacc Hx) as Hs.
  pose proof (nested_setFrom_below _ _ _ _ _ _ [] [] Hs) as Hb.
  by rewrite app_nil_r in Hb.
Qed.

(** Without a value to copy, the first round leaves the empty map. *)
Lemma prunedFirst_self (obj : option (gmap string value)) (p : list string) :
  p <> [] -> pruneStep (Some (prunedFirst obj p)) ∅ p = prunedFirst obj p.
Proof.
  intros Hp.
  destruct (NestedFieldNoCopy obj p) as [x| |err] eqn:Hx.
  - apply pruneStep_congr. rewrite Hx.
    apply (pruneStep_at obj ∅ p x Hp (leavesOf_empty obj) Hx).
  - assert (prunedFirst obj p = ∅) as ->
      by (apply pruneStep_absent; by rewrite Hx).
    by apply pruneStep_of_empty.
  - assert (prunedFirst obj p = ∅) as ->
      by (apply pruneStep_absent; by rewrite Hx).
    by apply pruneStep_of_empty.
Qed.

(** The value at the second path is the one of [obj]. *)
Lemma both_at_second (obj : option (gmap string value)) (p p' : list string)
    (x : value) :
  p' <> [] -> NestedFieldNoCopy obj p' = Present x ->
  nestedFrom (VMap (prunedBoth obj p p')) [] p' = Present x.
Proof. intros Hp Hx. apply pruneStep_at; [done|apply leavesOf_first|done]. Qed.

(** A leaf at the first path survives the copy of the second path. *)
Lemma both_at_first (obj : option (gmap string value)) (p p' : list string)
    (x : value) :
  p <> [] -> NestedFieldNoCopy obj p = Present x -> is_map x = false ->
  nestedFrom (VMap (prunedBoth obj p p')) [] p = Present x.
Proof.
  intros Hp Hx Hleaf.
  pose proof (pruneStep_at obj ∅ p x Hp (leavesOf_empty obj) Hx) as Hfirst.
  fold (prunedFirst obj p) in Hfirst.
  destruct (pruneStep_cases obj (prunedFirst obj p) p' (leavesOf_first obj p))
    as [Heq|(f & rest & y & Hp' & Hy & Hs)].
  { unfold prunedBoth. by rewrite Heq. }
  fold (prunedBoth obj p p') in Hs.
  remember (prunedBoth obj p p') as R eqn:HR. clear HR.
  remember (prunedFirst obj p) as A eqn:HA. clear HA.
  destruct (decide (p' `prefix_of` p)) as [[r Hr]|Hpq].
  - rewrite Hr, Hp', (nested_setFrom_below _ _ _ _ _ _ [] r Hs).
    unfold NestedFieldNoCopy in Hx, Hy.
    rewrite Hr, nestedFrom_app, Hy in Hx. by rewrite <- Hp'.
  - destruct (decide (p `prefix_of` p')) as [[r Hr]|Hqp].
    + exfalso. unfold NestedFieldNoCopy in Hx, Hy.
      rewrite Hr, nestedFrom_app, Hx in Hy.
      apply nestedFrom_leaf in Hy as [-> _]; last done.
      apply Hpq. rewrite Hr, app_nil_r. done.
    + rewrite Hp' in Hpq, Hqp.
      by rewrite (nested_setFrom_aside _ _ _ _ _ _ [] p Hs Hpq Hqp).
Qed.

(** When the second path is copied, the result holds at the first path what
    the first round of a second pruning needs. *)
Lemma both_first_again (obj : option (gmap string value)) (p p' : list string)
    (x' : value) :
  p <> [] -> NestedFieldNoCopy obj p' = Present x' ->
  pruneStep (Some (prunedBoth obj p p')) ∅ p = prunedFirst obj p.
Proof.
  intros Hp Hx'.
  destruct p' as [|f rest].
  { unfold prunedBoth, pruneStep at 2, NestedFieldCopy. rewrite Hx'.
    by apply prunedFirst_self. }
  pose proof (pruneStep_present obj _ f rest x' (leavesOf_first obj p) Hx') as Hs.
  fold (prunedBoth obj p (f :: rest)) in Hs.
  remember (prunedBoth obj p (f :: rest)) as R eqn:HR. clear HR.
  destruct (decide ((f :: rest) `prefix_of` p)) as [[r Hr]|Hpq].
  - apply pruneStep_congr. unfold NestedFieldNoCopy in *. simpl.
    rewrite Hr. rewrite (nested_setFrom_below _ _ _ _ _ _ [] r Hs).
    by rewrite nestedFrom_app, Hx'.
  - destruct (decide (p `prefix_of` (f :: rest))) as [[r Hr]|Hqp].
    + unfold NestedFieldNoCopy in Hx'. rewrite Hr, nestedFrom_app in Hx'.
      destruct (nestedFrom (VMap (default ∅ obj)) [] p) as [x| |] eqn:Hx;
        try done.
      pose proof (pruneStep_at obj ∅ p x Hp (leavesOf_empty obj) Hx) as Ha.
      fold (prunedFirst obj p) in Ha.
      assert (Hat : nestedFrom (VMap (prunedFirst obj p)) [] (f :: rest)
                    = Present x')
        by (by rewrite Hr, nestedFrom_app, Ha).
      rewrite (setFrom_same _ _ _ [] _ _ Hat) in Hs. injection Hs as Hs.
      rewrite <- Hs. by apply prunedFirst_self.
    + rewrite <- (prunedFirst_self obj p Hp).
      apply pruneStep_congr. unfold NestedFieldNoCopy. simpl.
      by apply (nested_setFrom_aside _ _ _ _ _ _ [] p Hs).
Qed.

Lemma both_idempotent (obj : option (gmap string value)) (p p' : list string) :
  p <> [] -> p' <> [] ->
  prunedBoth (Some (prunedBoth obj p p')) p p' = prunedBoth obj p p'.
Proof.
  intros Hp Hp'. unfold prunedBoth at 1, prunedFirst at 1.
  destruct (NestedFieldNoCopy obj p') as [x'| |err] eqn:Hx'.
  - rewrite (both_first_again obj p p' x' Hp Hx').
    apply pruneStep_congr. rewrite Hx'. by apply both_at_second.
  - assert (prunedBoth obj p p' = prunedFirst obj p) as ->
      by (apply pruneStep_absent; by rewrite Hx').
    rewrite prunedFirst_self by done. apply pruneStep_self.
  - assert (prunedBoth obj p p' = prunedFirst obj p) as ->
      by (apply pruneStep_absent; by rewrite Hx').
    rewrite prunedFirst_self by done. apply pruneStep_self.
Qed.

(** ** [Pruned] on the two key paths of the observer *)

Lemma Pruned_inv (obj : option (gmap string value)) (p1 p2 : list string) r :
  Pruned obj [p1; p2] = Returned r ->
  (obj = None /\ r = None) \/
  (p1 <> [] /\ p2 <> [] /\ obj <> None /\
   r = Some (prunedBoth obj p1 p2)).
Proof.
  destruct obj as [E|]; last by (intros [= <-]; left).
  intros H. right.
  destruct p1 as [|f1 r1]; first done.
  destruct p2 as [|f2 r2].
  { exfalso. unfold Pruned in H. simpl in H.
    destruct (NestedFieldCopy (Some E) (f1 :: r1)) as [x| |]; try done.
    by destruct (setFrom ∅ x [] f1 r1). }
  rewrite Pruned_two in H by done. injection H as <-. done.
Qed.

Lemma Pruned_returns (obj : option (gmap string value)) (p1 p2 : list string) :
  p1 <> [] -> p2 <> [] -> exists r, Pruned obj [p1; p2] = Returned r.
Proof. intros H1 H2. rewrite Pruned_two by done. by eexists. Qed.

Lemma Pruned_empty (p1 p2 : list string) :
  p1 <> [] -> p2 <> [] -> Pruned (Some ∅) [p1; p2] = Returned (Some ∅).
Proof.
  intros H1 H2. rewrite Pruned_two by done.
  assert (forall p, p <> [] -> pruneStep (Some ∅) ∅ p = ∅) as Hstep.
  { intros p Hp. apply pruneStep_absent. intros x Hx.
    apply nestedFrom_empty in Hx as [-> _]. done. }
  by rewrite !Hstep.
Qed.

(** Pruning twice is pruning once. *)
Lemma Pruned_idempotent (obj : option (gmap string value)) (p1 p2 : list string) r :
  Pruned obj [p1; p2] = Returned r -> Pruned r [p1; p2] = Returned r.
Proof.
  intros H. destruct (Pruned_inv _ _ _ _ H) as [[_ ->]|(H1 & H2 & _ & ->)];
    first done.
  rewrite Pruned_two by done. fold (prunedFirst (Some (prunedBoth obj p1 p2)) p1).
  fold (prunedBoth (Some (prunedBoth obj p1 p2)) p1 p2).
  by rewrite both_idempotent.
Qed.

(** Every path of the result lies on or below one of the two paths. *)
Lemma Pruned_within (obj : option (gmap string value)) (p1 p2 : list string) r
    (q : list string) (v : value) :
  Pruned obj [p1; p2] = Returned r -> NestedFieldNoCopy r q = Present v ->
  q `prefix_of` p1 \/ p1 `prefix_of` q \/ q `prefix_of` p2 \/ p2 `prefix_of` q.
Proof.
  intros H Hq. destruct (Pruned_inv _ _ _ _ H) as [[_ ->]|(H1 & H2 & _ & ->)].
  - apply nestedFrom_empty in Hq as [-> _]. left. apply prefix_nil.
  - destruct (withinPaths_both obj p1 p2 q v Hq) as [->|(p & Hp & Hpq)].
    { left. apply prefix_nil. }
    apply elem_of_cons in Hp as [->|Hp]; first by destruct Hpq; auto.
    apply list_elem_of_singleton in Hp as ->. by destruct Hpq; auto.
Qed.

(** Every leaf of the result is a leaf of the pruned map. *)
Lemma Pruned_leaf (obj : option (gmap string value)) (p1 p2 : list string) r
    (q : list string) (x : value) :
  Pruned obj [p1; p2] = Returned r -> NestedFieldNoCopy r q = Present x ->
  is_map x = false -> NestedFieldNoCopy obj q = Present x.
Proof.
  intros H Hq Hx. destruct (Pruned_inv _ _ _ _ H) as [[-> ->]|(H1 & H2 & _ & ->)];
    first done.
  by apply (leavesOf_both obj p1 p2).
Qed.

Lemma Pruned_first (obj : option (gmap string value)) (p1 p2 : list string) r
    (x : value) :
  Pruned obj [p1; p2] = Returned r -> NestedFieldNoCopy obj p1 = Present x ->
  is_map x = false -> NestedFieldNoCopy r p1 = Present x.
Proof.
  intros H Hq Hx. destruct (Pruned_inv _ _ _ _ H) as [[-> ->]|(H1 & H2 & _ & ->)];
    first done.
  by apply both_at_first.
Qed.

Lemma Pruned_second (obj : option (gmap string value)) (p1 p2 : list string) r
    (x : value) :
  Pruned obj [p1; p2] = Returned r -> NestedFieldNoCopy obj p2 = Present x ->
  NestedFieldNoCopy r p2 = Present x.
Proof.
  intros H Hq. destruct (Pruned_inv _ _ _ _ H) as [[-> ->]|(H1 & H2 & _ & ->)];
    first done.
  by apply both_at_second.
Qed.

Lemma NestedStringSlice_Present (o : option (gmap string value)) (p : list string)
    (l : list string) :
  NestedStringSlice o p = Present l <->
  exists vl, NestedFieldNoCopy o p = Present (VSlice vl) /\ toStrings vl = Some l.
Proof.
  unfold NestedStringSlice. split.
  - destruct (NestedFieldNoCopy o p) as [[| | | | |vl|]| |]; try done.
    destruct (toStrings vl) as [l'|] eqn:Hl; last done.
    intros [= ->]. by exists vl.
  - intros (vl & -> & ->). done.
Qed.

Lemma NestedStringSlice_slice (o : option (gmap string value)) (p : list string)
    (s : string) :
  NestedFieldNoCopy o p = Present (slice s) -> NestedStringSlice o p = Present [s].
Proof. intros H. apply NestedStringSlice_Present. by exists [VStr s]. Qed.

Lemma Pruned_NestedStringSlice (obj : option (gmap string value))
    (p1 p2 : list string) r (q : list string) (l : list string) :
  Pruned obj [p1; p2] = Returned r -> NestedStringSlice r q = Present l ->
  NestedStringSlice obj q = Present l.
Proof.
  intros H Hq. apply NestedStringSlice_Present in Hq as (vl & Hq & Hl).
  apply NestedStringSlice_Present. exists vl. split; last done.
  by eapply Pruned_leaf.
Qed.

End PrunedFacts.

(** * Running and writing *)

Section Writes.
Import unstructured configobserver.

Lemma recording_nil w : recording w [] = w.
Proof. destruct w. unfold recording. simpl. by rewrite app_nil_r. Qed.

Lemma GetPlatformName_run (platformType : configv1.PlatformType) (w : World) :
  GetPlatformName platformType w =
  (Returned (resolvedProvider platformType),
   recording w (platformWarnings platformType)).
Proof.
  unfold resolvedProvider, platformWarnings, GetPlatformName.
  repeat (destruct (String.eqb platformType _);
          [first [ by rewrite recording_nil | done ] |]).
  done.
Qed.

Lemma resolvedProvider_range (platformType : configv1.PlatformType) :
  resolvedProvider platformType = "" \/
  resolvedProvider platformType ∈ validCloudProviders.
Proof.
  unfold resolvedProvider, GetPlatformName.
  repeat (destruct (String.eqb platformType _);
          [first [ by left | right; by vm_compute ] |]).
  by left.
Qed.

Lemma platformWarnings_no_change (platformType : configv1.PlatformType) :
  Forall (fun e => ~ isChange e) (platformWarnings platformType).
Proof.
  unfold platformWarnings, GetPlatformName.
  repeat (destruct (String.eqb platformType _);
          [first [ by constructor | by repeat constructor ] |]).
  by repeat constructor.
Qed.

(** ** What the observer writes *)

Lemma SetNestedStringSlice_cons obj (s : string) (f : string) (rest : list string) :
  SetNestedStringSlice obj [s] (f :: rest) = Returned (setFrom obj (slice s) [] f rest).
Proof. done. Qed.

Lemma slice_leaf (s : string) (p r : list string) (y : value) :
  nestedFrom (slice s) p r = Present y -> r = [] /\ y = slice s.
Proof. by apply nestedFrom_leaf. Qed.

(** The three outcomes of writing a string slice at [p]. *)
Lemma SetNestedStringSlice_result S obj (s : string) (p : list string) :
  leavesAt S obj ->
  match SetNestedStringSlice obj [s] p with
  | Panicked _ => p = []
  | Returned (obj', Some _) =>
      exists q r x, p = (q ++ r)%list /\ r <> [] /\
        nestedFrom (VMap obj) [] q = Present x /\ is_map x = false
  | Returned (obj', None) =>
      leavesAt (fun q x => S q x \/ (q = p /\ x = slice s)) obj' /\
      nestedFrom (VMap obj') [] p = Present (slice s) /\
      (forall q, ~ p `prefix_of` q -> ~ q `prefix_of` p ->
                 nestedFrom (VMap obj') [] q = nestedFrom (VMap obj) [] q)
  end.
Proof.
  intros Hobj. destruct p as [|f rest]; first done.
  rewrite SetNestedStringSlice_cons.
  destruct (setFrom obj (slice s) [] f rest) as [obj' [err|]] eqn:Hs.
  - by eapply setFrom_err_blocked.
  - split_and!.
    + eapply leavesAt_setFrom; [|  |exact Hs].
      * eapply leavesAt_mono; [|exact Hobj]. intros q x H. by left.
      * intros r y Hy _. apply slice_leaf in Hy as [-> ->].
        right. by rewrite app_nil_r.
    + pose proof (nested_setFrom_below _ _ _ _ _ _ [] [] Hs) as Hb.
      by rewrite app_nil_r in Hb.
    + intros q Hpq Hqp. by eapply nested_setFrom_aside.
Qed.

(** Writing into the fresh map cannot fail. *)
Lemma SetNestedStringSlice_fresh (s : string) (p : list string) :
  match SetNestedStringSlice ∅ [s] p with
  | Panicked _ => p = []
  | Returned (obj', err) =>
      err = None /\ p <> [] /\
      leavesAt (fun q x => q = p /\ x = slice s) obj' /\
      nestedFrom (VMap obj') [] p = Present (slice s)
  end.
Proof.
  pose proof (SetNestedStringSlice_result (fun _ _ => False) ∅ s p
                (leavesAt_empty _)) as H.
  destruct (SetNestedStringSlice ∅ [s] p) as [[obj' [err|]]|why]; last done.
  - destruct H as (q & r & x & _ & _ & Hq & Hx).
    apply nestedFrom_empty in Hq as [_ ->]. done.
  - destruct H as (Hl & Hp & _). split_and!; try done.
    + intros ->. done.
    + eapply leavesAt_mono; [|exact Hl]. by intros q x [[]|].
Qed.

(** Lines 79-87 on the fresh map: nothing, or the one name. *)
Lemma observeProviderName_result (c : cloudProviderObserver) (external : bool)
    (cloudProvider : string) :
  match observeProviderName c external cloudProvider ∅ [] with
  | Panicked _ => cloudProviderNamePath c = []
  | Returned (obs, errs) =>
      errs = [] /\
      leavesAt (fun q x => q = cloudProviderNamePath c /\
                           x = slice (writtenName external cloudProvider)) obs /\
      (external = true \/ cloudProvider <> "" ->
       nestedFrom (VMap obs) [] (cloudProviderNamePath c)
       = Present (slice (writtenName external cloudProvider)))
  end.
Proof.
  unfold observeProviderName, writtenName.
  destruct external.
  - pose proof (SetNestedStringSlice_fresh "external" (cloudProviderNamePath c)) as H.
    destruct (SetNestedStringSlice ∅ ["external"] _) as [[obs err]|why]; last done.
    destruct H as (-> & _ & Hl & Hv). done.
  - destruct cloudProvider as [|a cloudProvider].
    + simpl. split_and!; [done|apply leavesAt_empty|]. by intros [|].
    + simpl.
      pose proof (SetNestedStringSlice_fresh (String a cloudProvider)
                    (cloudProviderNamePath c)) as H.
      destruct (SetNestedStringSlice ∅ _ _) as [[obs err]|why]; last done.
      destruct H as (-> & _ & Hl & Hv). done.
Qed.

Lemma observeProviderName_fresh (c : cloudProviderObserver) (external : bool)
    (cloudProvider : string) :
  cloudProviderNamePath c <> [] ->
  exists obs, observeProviderName c external cloudProvider ∅ [] = Returned (obs, []) /\
    leavesAt (fun q x => q = cloudProviderNamePath c /\
                         x = slice (writtenName external cloudProvider)) obs /\
    (external = true \/ cloudProvider <> "" ->
     nestedFrom (VMap obs) [] (cloudProviderNamePath c)
     = Present (slice (writtenName external cloudProvider))).
Proof.
  intros Hnp.
  pose proof (observeProviderName_result c external cloudProvider) as H.
  destruct (observeProviderName c external cloudProvider ∅ [])
    as [[obs errs]|why]; last done.
  destruct H as (-> & Hl & Hv). by exists obs.
Qed.

End Writes.

(** * Properties of the platform-name resolver *)

(** C7: for each of the twelve defined platform types [GetPlatformName]
    returns the documented provider ("aws", "azure", "vsphere", "gce",
    "openstack", or the empty string for bare-metal, libvirt, IBM-cloud, none,
    ovirt, kubevirt and Alibaba) and leaves the world as it is; for the empty
    and for an unrecognized platform type it returns the empty string and
    records one warning, and nothing else. *)
Theorem GetPlatformName_documented (w : World) :
  GetPlatformName configv1.AWSPlatformType w = (Returned "aws", w) /\
  GetPlatformName configv1.AzurePlatformType w = (Returned "azure", w) /\
  GetPlatformName configv1.VSpherePlatformType w = (Returned "vsphere", w) /\
  GetPlatformName configv1.GCPPlatformType w = (Returned "gce", w) /\
  GetPlatformName configv1.OpenStackPlatformType w = (Returned "openstack", w) /\
  GetPlatformName configv1.BareMetalPlatformType w = (Returned "", w) /\
  GetPlatformName configv1.LibvirtPlatformType w = (Returned "", w) /\
  GetPlatformName configv1.IBMCloudPlatformType w = (Returned "", w) /\
  GetPlatformName configv1.NonePlatformType w = (Returned "", w) /\
  GetPlatformName configv1.OvirtPlatformType w = (Returned "", w) /\
  GetPlatformName configv1.KubevirtPlatformType w = (Returned "", w) /\
  GetPlatformName configv1.AlibabaCloudPlatformType w = (Returned "", w) /\
  GetPlatformName "" w = (Returned "", recording w [unsetPlatformWarning]) /\
  (forall platformType : configv1.PlatformType,
      platformType <> "" -> platformType ∉ configv1.definedPlatformTypes ->
      GetPlatformName platformType w
      = (Returned "", recording w [unrecognizedPlatformWarning])).
Proof.
  split_and!; try reflexivity.
  intros platformType Hne Hnot. unfold configv1.definedPlatformTypes in Hnot.
  repeat (apply not_elem_of_cons in Hnot as [? Hnot]).
  unfold GetPlatformName.
  repeat (rewrite (proj2 (String.eqb_neq platformType _)) by assumption).
  reflexivity.
Qed.

(** * The return paths of the observer *)

Section Observing.
Import unstructured configobserver.

Variable externalEvaluator :
  option configv1.PlatformStatus -> configv1.FeatureGate -> bool * option error.

Abbreviation Observe := (ObserveCloudProviderNames externalEvaluator).
Abbreviation body := (observeBody externalEvaluator).
Abbreviation isExternal := (IsCloudProviderExternal externalEvaluator).

Lemma Observe_unfold c genericListers existingConfig w :
  Observe c genericListers existingConfig w =
  match body c genericListers existingConfig w with
  | (Returned (ret, errs), w') =>
      match Pruned ret [cloudProviderConfigPath c; cloudProviderNamePath c] with
      | Returned r => (Returned (r, errs), w')
      | Panicked why => (Panicked why, w')
      end
  | (Panicked why, w') => (Panicked why, w')
  end.
Proof.
  unfold ObserveCloudProviderNames, mbind, M_bind.
  destruct (body c genericListers existingConfig w) as [[[ret errs]|why] w'];
    last done.
  simpl. by destruct (Pruned ret _).
Qed.

Lemma body_not_found c L existingConfig w :
  InfrastructureLister_Get L "cluster" = ErrNotFound ->
  body c (InfrastructureListers L) existingConfig w =
  (Returned (Some ∅, []),
   recording w [warning "ObserveCloudProviderNames"
                  "Required infrastructures.config.openshift.io/cluster not found"]).
Proof.
  intros Hget. unfold observeBody, mbind, M_bind. cbn. by rewrite Hget.
Qed.

Lemma body_infrastructure_error c L existingConfig w err :
  InfrastructureLister_Get L "cluster" = ErrOther err ->
  body c (InfrastructureListers L) existingConfig w =
  (Returned (existingConfig, [err]), w).
Proof.
  intros Hget. unfold observeBody, mbind, M_bind. cbn. by rewrite Hget.
Qed.

Lemma body_external_error c L existingConfig w infrastructure b err :
  InfrastructureLister_Get L "cluster" = Got infrastructure ->
  isExternal L (configv1.PlatformStatus_ (configv1.Status infrastructure))
    = (b, Some err) ->
  body c (InfrastructureListers L) existingConfig w =
  (Returned (existingConfig, [err]),
   recording w [warning "ObserveCloudProviderNames"
                  ("Could not determine external cloud provider state: " ++ err)]).
Proof.
  intros Hget Hext. unfold observeBody, mbind, M_bind. cbn.
  by rewrite Hget, Hext.
Qed.

(** Past the two lookups and the provider name, the body is this decision
    on the source config-map, the sync and the config-file path. *)
Lemma body_main c L existingConfig w infrastructure external obs :
  InfrastructureLister_Get L "cluster" = Got infrastructure ->
  isExternal L (configv1.PlatformStatus_ (configv1.Status infrastructure))
    = (external, None) ->
  let platformType := configv1.Platform (configv1.Status infrastructure) in
  observeProviderName c external (resolvedProvider platformType) ∅ []
    = Returned (obs, []) ->
  body c (InfrastructureListers L) existingConfig w =
  let w0 := recording w (platformWarnings platformType) in
  match sourceCloudConfig L infrastructure with
  | inr err => (Returned (existingConfig, [err]), w0)
  | inl (name, namespace, key) =>
      let '(name', sourceLocation) :=
        sourceLocationFor (resolvedProvider platformType) namespace name in
      let w1 := syncing w0 (destinationOf c) sourceLocation in
      match ResourceSyncer_SyncConfigMap L (destinationOf c) sourceLocation with
      | Some err => (Returned (existingConfig, [err]), w1)
      | None =>
          if (String.length name' =? 0)%nat then (Returned (Some obs, []), w1)
          else
            let file := cloudProviderConfFilePath key in
            match SetNestedStringSlice obs [file] (cloudProviderConfigPath c) with
            | Panicked why => (Panicked why, w1)
            | Returned (_, Some err) =>
                (Returned (existingConfig, [err]),
                 recording w1 [warning "ObserveCloudProviderNames"
                                 ("Failed setting cloud-config : " ++ err)])
            | Returned (obs', None) =>
                (Returned (Some obs', readErrors c existingConfig),
                 recording w1 (changeEvents c existingConfig file))
            end
      end
  end.
Proof.
  intros Hget Hext platformType Hname.
  unfold observeBody, mbind, M_bind. cbn. rewrite Hget, Hext.
  rewrite GetPlatformName_run. fold platformType. cbn. rewrite Hname. cbn.
  destruct (sourceCloudConfig L infrastructure) as [[[name namespace] key]|err];
    last done.
  destruct (sourceLocationFor (resolvedProvider platformType) namespace name)
    as [name' sourceLocation].
  unfold SyncConfigMap, destinationOf, syncing. cbn.
  destruct (ResourceSyncer_SyncConfigMap L _ sourceLocation) as [err|]; first done.
  destruct (String.length name' =? 0)%nat; first done.
  destruct (SetNestedStringSlice obs _ _) as [[obs' [err|]]|why]; try done.
  unfold readErrors, changeEvents, Eventf, changeEvent, recording.
  destruct (NestedStringSlice existingConfig _) as [l| |err]; cbn.
  - destruct (bool_decide (l = _)); cbn; [by rewrite app_nil_r|done].
  - by rewrite bool_decide_eq_false_2.
  - by rewrite bool_decide_eq_false_2.
Qed.

(** ** The shape of every run *)

Lemma extend_nil w : extend w [] [] = w.
Proof. destruct w. unfold extend. simpl. by rewrite !app_nil_r. Qed.

Lemma recording_is_extend w evs : recording w evs = extend w evs [].
Proof. unfold recording, extend. by rewrite app_nil_r. Qed.

Lemma syncing_is_extend w d s :
  syncing w d s =
  extend w [] [ {| resourcesynccontroller.destination := d;
                   resourcesynccontroller.source := s |} ].
Proof. unfold syncing, extend. by rewrite app_nil_r. Qed.

Lemma extend_extend w evs reqs evs' reqs' :
  extend (extend w evs reqs) evs' reqs' = extend w (evs ++ evs') (reqs ++ reqs').
Proof. unfold extend. simpl. by rewrite !app_assoc. Qed.

Ltac worlds :=
  rewrite ?recording_is_extend, ?syncing_is_extend, ?extend_extend;
  simpl; rewrite ?app_nil_r; try reflexivity.

Lemma body_name_panic c L existingConfig w infrastructure external why :
  InfrastructureLister_Get L "cluster" = Got infrastructure ->
  isExternal L (configv1.PlatformStatus_ (configv1.Status infrastructure))
    = (external, None) ->
  let platformType := configv1.Platform (configv1.Status infrastructure) in
  observeProviderName c external (resolvedProvider platformType) ∅ []
    = Panicked why ->
  body c (InfrastructureListers L) existingConfig w =
  (Panicked why, recording w (platformWarnings platformType)).
Proof.
  intros Hget Hext platformType Hname.
  unfold observeBody, mbind, M_bind. cbn. rewrite Hget, Hext.
  rewrite GetPlatformName_run. fold platformType. cbn. by rewrite Hname.
Qed.

(** Whatever the prior configuration and the world, a run of the body
    panics, or fails with the prior configuration, or observes a map that
    does not depend on them; only the errors and events of reading the
    prior configuration do. *)
Lemma body_shape (c : cloudProviderObserver) (L : InfrastructureLister) :
  exists evs reqs, Forall (fun e => ~ isChange e) evs /\
    ((exists why,
         (cloudProviderNamePath c = [] \/ cloudProviderConfigPath c = []) /\
         forall existingConfig w,
         body c (InfrastructureListers L) existingConfig w
         = (Panicked why, extend w evs reqs))
     \/ (exists errs, errs <> [] /\ forall existingConfig w,
         body c (InfrastructureListers L) existingConfig w
         = (Returned (existingConfig, errs), extend w evs reqs))
     \/ (exists obs, leavesAt (fun _ x => oneString x) obs /\
         forall existingConfig w,
         body c (InfrastructureListers L) existingConfig w
         = (Returned (Some obs, []), extend w evs reqs))
     \/ (exists obs file, leavesAt (fun _ x => oneString x) obs /\
         nestedFrom (VMap obs) [] (cloudProviderConfigPath c) = Present (slice file) /\
         forall existingConfig w,
         body c (InfrastructureListers L) existingConfig w
         = (Returned (Some obs, readErrors c existingConfig),
            extend w (evs ++ changeEvents c existingConfig file) reqs))).
Proof.
  destruct (InfrastructureLister_Get L "cluster") as [infrastructure| |err] eqn:Hget.
  2:{ eexists _, []. split; last first.
      - right. right. left. exists ∅. split; first apply leavesAt_empty.
        intros existingConfig w. rewrite body_not_found by done.
        worlds.
      - by repeat constructor. }
  2:{ exists [], []. split; first done.
      right. left. exists [err]. split; first done.
      intros existingConfig w. rewrite (body_infrastructure_error _ _ _ _ err) by done.
      by rewrite extend_nil. }
  destruct (isExternal L (configv1.PlatformStatus_ (configv1.Status infrastructure)))
    as [external [err|]] eqn:Hext.
  { eexists _, []. split; last first.
    - right. left. exists [err]. split; first done.
      intros existingConfig w.
      rewrite (body_external_error _ _ _ _ _ _ err Hget Hext).
      worlds.
    - by repeat constructor. }
  set (platformType := configv1.Platform (configv1.Status infrastructure)).
  pose proof (platformWarnings_no_change platformType) as Hwarn.
  pose proof (observeProviderName_result c external (resolvedProvider platformType))
    as Hname.
  destruct (observeProviderName c external (resolvedProvider platformType) ∅ [])
    as [[obs errs]|why] eqn:Hobs.
  2:{ exists (platformWarnings platformType), []. split; first done.
      left. exists why. split; first by left. intros existingConfig w.
      rewrite (body_name_panic _ _ _ _ _ _ why Hget Hext Hobs).
      worlds. }
  destruct Hname as (-> & Hleaves & _).
  assert (Hone : leavesAt (fun _ x => oneString x) obs).
  { eapply leavesAt_mono; [|exact Hleaves]. intros q x [_ ->]. by eexists. }
  pose proof (fun existingConfig w =>
                body_main c L existingConfig w _ _ _ Hget Hext Hobs)
    as Hbody.
  cbv zeta in Hbody. fold platformType in Hbody.
  destruct (sourceCloudConfig L infrastructure) as [[[name namespace] key]|err].
  2:{ exists (platformWarnings platformType), []. split; first done.
      right. left. exists [err]. split; first done.
      intros existingConfig w. rewrite Hbody. worlds. }
  destruct (sourceLocationFor (resolvedProvider platformType) namespace name)
    as [name' sourceLocation].
  destruct (ResourceSyncer_SyncConfigMap L (destinationOf c) sourceLocation)
    as [err|].
  { eexists (platformWarnings platformType), [_]. split; first done.
    right. left. exists [err]. split; first done.
    intros existingConfig w. rewrite Hbody.
    worlds. }
  destruct (String.length name' =? 0)%nat.
  { eexists (platformWarnings platformType), [_]. split; first done.
    right. right. left. exists obs. split; first done.
    intros existingConfig w. rewrite Hbody.
    worlds. }
  pose proof (SetNestedStringSlice_result _ obs (cloudProviderConfFilePath key)
                (cloudProviderConfigPath c) Hone) as Hset.
  destruct (SetNestedStringSlice obs [cloudProviderConfFilePath key]
              (cloudProviderConfigPath c)) as [[obs' [err|]]|why].
  - eexists (platformWarnings platformType ++ [_])%list, [_]. split; last first.
    + right. left. exists [err]. split; first done.
      intros existingConfig w. rewrite Hbody.
      worlds.
    + apply Forall_app. split; first done. by repeat constructor.
  - destruct Hset as (Hl & Hat & _).
    eexists (platformWarnings platformType), [_]. split; first done.
    right. right. right. exists obs', (cloudProviderConfFilePath key).
    split_and!; [|done|].
    + eapply leavesAt_mono; [|exact Hl]. intros q x [H|[_ ->]]; [done|by eexists].
    + intros existingConfig w. rewrite Hbody.
      worlds.
  - eexists (platformWarnings platformType), [_]. split; first done.
    left. exists why. split; first by right.
    intros existingConfig w. rewrite Hbody.
    worlds.
Qed.

(** ** Properties of the observer *)

(** C6: when the infrastructure resource is not found, the observer returns
    the empty configuration and no error, whatever the prior configuration;
    it records one warning and requests no sync. *)
Theorem infrastructure_not_found_is_empty (c : cloudProviderObserver)
    (L : InfrastructureLister) (existingConfig : option (gmap string value))
    (w : World) :
  cloudProviderConfigPath c <> [] -> cloudProviderNamePath c <> [] ->
  InfrastructureLister_Get L "cluster" = ErrNotFound ->
  Observe c (InfrastructureListers L) existingConfig w =
  (Returned (Some ∅, []),
   {| recorded := recorded w ++
        [warning "ObserveCloudProviderNames"
           "Required infrastructures.config.openshift.io/cluster not found"];
      synced := synced w |}).
Proof.
  intros Hcp Hnp Hget.
  rewrite Observe_unfold, body_not_found by done.
  by rewrite Pruned_empty.
Qed.

Lemma Observe_total (c : cloudProviderObserver) (L : InfrastructureLister)
    (existingConfig : option (gmap string value)) (w : World) :
  cloudProviderConfigPath c <> [] -> cloudProviderNamePath c <> [] ->
  exists cfg errs w',
    Observe c (InfrastructureListers L) existingConfig w = (Returned (cfg, errs), w').
Proof.
  intros Hcp Hnp. rewrite Observe_unfold.
  destruct (body_shape c L) as (evs & reqs & _ & Hshape).
  destruct Hshape as [(why & [H|H] & _)|[(errs & _ & Hb)|[(obs & _ & Hb)
                      |(obs & file & _ & _ & Hb)]]]; try done; rewrite Hb.
  - destruct (Pruned_returns existingConfig _ _ Hcp Hnp) as [r ->]. by eexists _, _, _.
  - destruct (Pruned_returns (Some obs) _ _ Hcp Hnp) as [r ->]. by eexists _, _, _.
  - destruct (Pruned_returns (Some obs) _ _ Hcp Hnp) as [r ->]. by eexists _, _, _.
Qed.

Lemma Observe_inv c genericListers existingConfig w cfg errs w' :
  Observe c genericListers existingConfig w = (Returned (cfg, errs), w') ->
  exists L ret, genericListers = InfrastructureListers L /\
    body c genericListers existingConfig w = (Returned (ret, errs), w') /\
    Pruned ret [cloudProviderConfigPath c; cloudProviderNamePath c] = Returned cfg.
Proof.
  destruct genericListers as [|L]; first done.
  rewrite Observe_unfold.
  destruct (body c _ existingConfig w) as [[[ret errs0]|why] w0]; last done.
  destruct (Pruned ret _) as [r|why] eqn:Hp; last done.
  intros [= -> -> ->]. by exists L, ret.
Qed.

(** C3: whatever the return path, every key path present in the returned
    configuration lies on the way to, at, or below one of the two configured
    key paths. *)
Theorem Observe_only_configured_paths (c : cloudProviderObserver)
    (genericListers : Listers) (existingConfig : option (gmap string value))
    (w : World) cfg errs w' :
  Observe c genericListers existingConfig w = (Returned (cfg, errs), w') ->
  forall (q : list string) (v : value),
    NestedFieldNoCopy cfg q = Present v ->
    q `prefix_of` cloudProviderConfigPath c \/
    cloudProviderConfigPath c `prefix_of` q \/
    q `prefix_of` cloudProviderNamePath c \/
    cloudProviderNamePath c `prefix_of` q.
Proof.
  intros H q v Hq.
  apply Observe_inv in H as (L & ret & _ & _ & Hp).
  by eapply Pruned_within.
Qed.

Lemma changeEvents_same c existingConfig file :
  NestedStringSlice existingConfig (cloudProviderConfigPath c) = Present [file] ->
  changeEvents c existingConfig file = [].
Proof. intros H. unfold changeEvents. rewrite H. by rewrite bool_decide_eq_true_2. Qed.

(** C9: with the external resources unchanged, a second call on the
    configuration the first call returned returns that configuration again,
    and records no "changed" event. *)
Theorem Observe_idempotent (c : cloudProviderObserver) (genericListers : Listers)
    (existingConfig : option (gmap string value)) (w : World) cfg errs w'
    (w2 : World) :
  Observe c genericListers existingConfig w = (Returned (cfg, errs), w') ->
  exists errs2 evs reqs,
    Observe c genericListers cfg w2 = (Returned (cfg, errs2), extend w2 evs reqs) /\
    Forall (fun e => ~ isChange e) evs.
Proof.
  intros H. apply Observe_inv in H as (L & ret & -> & Hb & Hp).
  rewrite Observe_unfold.
  destruct (body_shape c L) as (evs & reqs & Hevs & Hshape).
  destruct Hshape as [(why & _ & Hs)|[(errs0 & _ & Hs)|[(obs & _ & Hs)
                      |(obs & file & _ & Hat & Hs)]]];
    rewrite Hs in Hb; try done; injection Hb as <- <- <-; rewrite Hs.
  - rewrite (Pruned_idempotent _ _ _ _ Hp). by eexists _, evs, reqs.
  - rewrite Hp. by eexists _, evs, reqs.
  - rewrite Hp. rewrite changeEvents_same, app_nil_r; first by eexists _, evs, reqs.
    apply NestedStringSlice_slice. by eapply Pruned_first.
Qed.

Lemma single_not_both (s : string) : ~ bothProviders [s].
Proof.
  intros [Hext (name & Hname & _ & Hne)].
  apply list_elem_of_singleton in Hext, Hname. congruence.
Qed.

(** C10, as amended: the returned configuration does not hold both the
    external marker and an in-tree provider name at the provider-name path,
    provided the prior configuration does not hold both there, or the call
    reports no error. *)
Theorem Observe_never_both_providers (c : cloudProviderObserver)
    (genericListers : Listers) (existingConfig : option (gmap string value))
    (w : World) cfg errs w' :
  Observe c genericListers existingConfig w = (Returned (cfg, errs), w') ->
  (forall l, NestedStringSlice existingConfig (cloudProviderNamePath c) = Present l ->
             ~ bothProviders l) \/ errs = [] ->
  forall l, NestedStringSlice cfg (cloudProviderNamePath c) = Present l ->
            ~ bothProviders l.
Proof.
  intros H Hprior l Hl. apply Observe_inv in H as (L & ret & -> & Hb & Hp).
  pose proof (Pruned_NestedStringSlice _ _ _ _ _ _ Hp Hl) as Hret.
  destruct (body_shape c L) as (evs & reqs & _ & Hshape).
  assert (forall obs, leavesAt (fun _ x => oneString x) obs -> ret = Some obs ->
                      ~ bothProviders l) as Hobs.
  { intros obs Hleaves ->.
    apply NestedStringSlice_Present in Hret as (vl & Hvl & Hstr).
    destruct (Hleaves _ _ Hvl eq_refl) as [s [= ->]].
    injection Hstr as <-. apply single_not_both. }
  destruct Hshape as [(why & _ & Hs)|[(errs0 & Herrs & Hs)|[(obs & Hleaves & Hs)
                      |(obs & file & Hleaves & _ & Hs)]]];
    rewrite Hs in Hb; try done; injection Hb as <- <- _.
  - destruct Hprior as [Hprior|Hnone]; [by apply Hprior|done].
  - by eapply Hobs.
  - by eapply Hobs.
Qed.

(** ** The sync source and the two written paths *)

Lemma independentPaths_nonempty c :
  independentPaths c -> cloudProviderConfigPath c <> [] /\ cloudProviderNamePath c <> [].
Proof.
  intros [H1 H2]. split; intros Heq; [apply H1|apply H2]; rewrite Heq; apply prefix_nil.
Qed.

Lemma length_eqb_zero (s : string) : (String.length s =? 0)%nat = true <-> s = "".
Proof. destruct s; simpl; split; done. Qed.

Lemma sourceLocationFor_valid (cloudProvider namespace name : string) :
  cloudProvider ∈ validCloudProviders -> name <> "" ->
  sourceLocationFor cloudProvider namespace name = (name, location namespace name).
Proof.
  intros Hin Hne. unfold sourceLocationFor.
  destruct (decide (cloudProvider ∈ validCloudProviders)); last done.
  destruct (String.length name =? 0)%nat eqn:Hlen; last done.
  by apply length_eqb_zero in Hlen.
Qed.

Lemma sourceLocationFor_empty (cloudProvider namespace name : string) :
  cloudProvider ∉ validCloudProviders \/ name = "" ->
  sourceLocationFor cloudProvider namespace name
  = ("", resourcesynccontroller.emptyLocation).
Proof.
  intros H. unfold sourceLocationFor.
  destruct (decide (cloudProvider ∈ validCloudProviders)); last done.
  destruct H as [H| ->]; done.
Qed.

Lemma GetPlatformName_resolved (platformType : configv1.PlatformType) (w : World)
    (cloudProvider : string) :
  (GetPlatformName platformType w).1 = Returned cloudProvider ->
  cloudProvider = resolvedProvider platformType.
Proof. rewrite GetPlatformName_run. by intros [= <-]. Qed.

Lemma writtenName_not_file (external : bool) (platformType : configv1.PlatformType)
    (key : string) :
  writtenName external (resolvedProvider platformType)
  <> cloudProviderConfFilePath key.
Proof.
  unfold writtenName. destruct external; first done.
  destruct (resolvedProvider_range platformType) as [->|Hin]; first done.
  unfold validCloudProviders in Hin. apply elem_of_list_to_set in Hin.
  repeat (apply elem_of_cons in Hin as [->|Hin]; first done).
  by apply elem_of_nil in Hin.
Qed.

(** Without a source config-map (the provider is not allow-listed, or the
    selected name is empty) the sync is requested from the empty location
    and the config-file path is not written. *)
Lemma observed_without_source (c : cloudProviderObserver) (L : InfrastructureLister)
    (existingConfig : option (gmap string value)) (w : World)
    (infrastructure : configv1.Infrastructure) (external : bool)
    (name namespace key : string) :
  cloudProviderConfigPath c <> [] -> cloudProviderNamePath c <> [] ->
  InfrastructureLister_Get L "cluster" = Got infrastructure ->
  isExternal L (configv1.PlatformStatus_ (configv1.Status infrastructure))
    = (external, None) ->
  sourceCloudConfig L infrastructure = inl (name, namespace, key) ->
  resolvedProvider (configv1.Platform (configv1.Status infrastructure))
    ∉ validCloudProviders \/ name = "" ->
  exists cfg errs w',
    Observe c (InfrastructureListers L) existingConfig w = (Returned (cfg, errs), w') /\
    synced w' = (synced w ++
      [request (destinationOf c) resourcesynccontroller.emptyLocation])%list /\
    (forall e, e ∈ recorded w' -> e ∈ recorded w \/ ~ isChange e) /\
    (ResourceSyncer_SyncConfigMap L (destinationOf c)
       resourcesynccontroller.emptyLocation = None ->
     errs = [] /\
     forall key', NestedStringSlice cfg (cloudProviderConfigPath c)
                  <> Present [cloudProviderConfFilePath key']).
Proof.
  intros Hcp Hnp Hget Hext Hsrc Hno.
  set (platformType := configv1.Platform (configv1.Status infrastructure)) in *.
  destruct (observeProviderName_fresh c external (resolvedProvider platformType) Hnp)
    as (obs & Hobs & Hleaves & _).
  rewrite Observe_unfold.
  rewrite (body_main c L existingConfig w _ _ _ Hget Hext Hobs).
  cbv zeta. fold platformType. rewrite Hsrc.
  rewrite (sourceLocationFor_empty _ _ _ Hno).
  pose proof (platformWarnings_no_change platformType) as Hwarn.
  destruct (ResourceSyncer_SyncConfigMap L (destinationOf c) _) as [err|].
  - destruct (Pruned_returns existingConfig _ _ Hcp Hnp) as [r ->].
    eexists _, _, _. split; first done. split_and!; try done.
    intros e He. simpl in He. apply elem_of_app in He as [He|He]; first by left.
    right. by eapply Forall_forall in Hwarn.
  - simpl. destruct (Pruned_returns (Some obs) _ _ Hcp Hnp) as [r Hr]. rewrite Hr.
    eexists _, _, _. split; first done. split_and!; try done.
    { intros e He. simpl in He. apply elem_of_app in He as [He|He]; first by left.
      right. by eapply Forall_forall in Hwarn. }
    intros _. split; first done. intros key' Hfile.
    apply (Pruned_NestedStringSlice _ _ _ _ _ _ Hr) in Hfile.
    apply NestedStringSlice_Present in Hfile as (vl & Hvl & Hstr).
    destruct (Hleaves _ _ Hvl eq_refl) as [_ [= ->]].
    injection Hstr as Hstr. by apply writtenName_not_file in Hstr.
Qed.

(** With an allow-listed provider, a named source config-map and
    independent key paths, the sync is requested from that config-map and,
    once it succeeds, both paths are written. *)
Lemma observed_with_source (c : cloudProviderObserver) (L : InfrastructureLister)
    (existingConfig : option (gmap string value)) (w : World)
    (infrastructure : configv1.Infrastructure) (external : bool)
    (name namespace key : string) :
  independentPaths c ->
  InfrastructureLister_Get L "cluster" = Got infrastructure ->
  isExternal L (configv1.PlatformStatus_ (configv1.Status infrastructure))
    = (external, None) ->
  sourceCloudConfig L infrastructure = inl (name, namespace, key) ->
  resolvedProvider (configv1.Platform (configv1.Status infrastructure))
    ∈ validCloudProviders ->
  name <> "" ->
  exists cfg errs w',
    Observe c (InfrastructureListers L) existingConfig w = (Returned (cfg, errs), w') /\
    synced w' = (synced w ++
      [request (destinationOf c) (location namespace name)])%list /\
    (ResourceSyncer_SyncConfigMap L (destinationOf c) (location namespace name) = None ->
     NestedStringSlice cfg (cloudProviderConfigPath c)
     = Present [cloudProviderConfFilePath key] /\
     NestedStringSlice cfg (cloudProviderNamePath c)
     = Present [writtenName external
                  (resolvedProvider (configv1.Platform (configv1.Status infrastructure)))]).
Proof.
  intros Hind Hget Hext Hsrc Hvalid Hname.
  destruct (independentPaths_nonempty c Hind) as [Hcp Hnp].
  set (platformType := configv1.Platform (configv1.Status infrastructure)) in *.
  destruct (observeProviderName_fresh c external (resolvedProvider platformType) Hnp)
    as (obs & Hobs & Hleaves & Hat).
  rewrite Observe_unfold.
  rewrite (body_main c L existingConfig w _ _ _ Hget Hext Hobs).
  cbv zeta. fold platformType. rewrite Hsrc.
  rewrite (sourceLocationFor_valid _ _ _ Hvalid Hname).
  destruct (ResourceSyncer_SyncConfigMap L (destinationOf c) _) as [err|].
  { destruct (Pruned_returns existingConfig _ _ Hcp Hnp) as [r ->].
    eexists _, _, _. split; first done. split; done. }
  assert ((String.length name =? 0)%nat = false) as ->.
  { destruct (String.length name =? 0)%nat eqn:Hlen; last done.
    by apply length_eqb_zero in Hlen. }
  pose proof (SetNestedStringSlice_result _ obs (cloudProviderConfFilePath key)
                (cloudProviderConfigPath c) Hleaves) as Hset.
  destruct (SetNestedStringSlice obs [cloudProviderConfFilePath key]
              (cloudProviderConfigPath c)) as [[obs' [err|]]|why]; last done.
  { exfalso. destruct Hset as (q & r & x & Hq & _ & Hx & Hleaf).
    destruct (Hleaves _ _ Hx Hleaf) as [-> _].
    destruct Hind as [_ Hind]. apply Hind. rewrite Hq. by apply prefix_app_r. }
  destruct Hset as (_ & Hfile & Haside).
  destruct (Pruned_returns (Some obs') _ _ Hcp Hnp) as [r Hr]. rewrite Hr.
  eexists _, _, _. split; first done. split; first done. intros _. split.
  - apply NestedStringSlice_slice. by eapply Pruned_first.
  - apply NestedStringSlice_slice. eapply Pruned_second; first done.
    unfold NestedFieldNoCopy. simpl. destruct Hind as [Hind1 Hind2].
    rewrite (Haside _ Hind1 Hind2). apply Hat.
    right. intros Heq. rewrite Heq in Hvalid. by vm_compute in Hvalid.
Qed.

(** ** Hard errors, the allow-list and the source config-map *)

(** On a hard error the body returns the prior configuration and at least
    one error. *)
Lemma body_hard_error (c : cloudProviderObserver) (L : InfrastructureLister)
    (existingConfig : option (gmap string value)) (w : World) :
  cloudProviderNamePath c <> [] -> hardError externalEvaluator c L ->
  exists errs w', errs <> [] /\
    body c (InfrastructureListers L) existingConfig w
    = (Returned (existingConfig, errs), w').
Proof.
  intros Hnp Hhard.
  assert (forall infrastructure,
    InfrastructureLister_Get L "cluster" = Got infrastructure ->
    (forall external obs,
       isExternal L (configv1.PlatformStatus_ (configv1.Status infrastructure))
         = (external, None) ->
       observeProviderName c external
         (resolvedProvider (configv1.Platform (configv1.Status infrastructure))) ∅ []
         = Returned (obs, []) ->
       exists errs w', errs <> [] /\
         body c (InfrastructureListers L) existingConfig w
         = (Returned (existingConfig, errs), w')) ->
    exists errs w', errs <> [] /\
      body c (InfrastructureListers L) existingConfig w
      = (Returned (existingConfig, errs), w')) as Hmain.
  { intros infrastructure Hget Hrest.
    destruct (isExternal L (configv1.PlatformStatus_ (configv1.Status infrastructure)))
      as [external [err|]] eqn:Hext.
    - eexists [err], _. split; first done. by eapply body_external_error.
    - destruct (observeProviderName_fresh c external
                  (resolvedProvider (configv1.Platform (configv1.Status infrastructure)))
                  Hnp) as (obs & Hobs & _).
      by eapply Hrest. }
  destruct Hhard as [err Hget
                    |infrastructure b err Hget Hext
                    |infrastructure err Hget Hcm
                    |infrastructure name namespace key name' loc err Hget Hsrc Hloc Hsync
                    |infrastructure external obs errs name namespace key name' loc
                       obs' err Hget Hext Hobs Hsrc Hloc Hname Hset].
  - eexists [err], _. split; first done. by apply body_infrastructure_error.
  - eexists [err], _. split; first done. by eapply body_external_error.
  - apply (Hmain infrastructure Hget). intros external obs Hext Hobs.
    rewrite (body_main c L existingConfig w _ _ _ Hget Hext Hobs).
    cbv zeta. unfold sourceCloudConfig. rewrite Hcm. by eexists [err], _.
  - apply (Hmain infrastructure Hget). intros external obs Hext Hobs.
    rewrite (body_main c L existingConfig w _ _ _ Hget Hext Hobs).
    cbv zeta. rewrite Hsrc, Hloc, Hsync. by eexists [err], _.
  - apply (Hmain infrastructure Hget). intros external0 obs0 Hext0 Hobs0.
    rewrite Hext in Hext0. injection Hext0 as <-.
    rewrite Hobs in Hobs0. injection Hobs0 as <- ->.
    rewrite (body_main c L existingConfig w _ _ _ Hget Hext Hobs).
    cbv zeta. rewrite Hsrc, Hloc.
    destruct (ResourceSyncer_SyncConfigMap L (destinationOf c) loc) as [err'|].
    { by eexists [err'], _. }
    assert ((String.length name' =? 0)%nat = false) as ->.
    { destruct name'; done. }
    rewrite Hset. by eexists [err], _.
Qed.

(** C1, as amended: a run that ends in a hard error returns the prior
    configuration pruned to the two key paths (the prior configuration
    itself when it holds nothing else), together with a non-empty list of
    errors. *)
Theorem hard_error_returns_pruned_prior (c : cloudProviderObserver)
    (L : InfrastructureLister) (existingConfig : option (gmap string value))
    (w : World) :
  cloudProviderConfigPath c <> [] -> cloudProviderNamePath c <> [] ->
  hardError externalEvaluator c L ->
  exists cfg errs w',
    Observe c (InfrastructureListers L) existingConfig w = (Returned (cfg, errs), w') /\
    Pruned existingConfig [cloudProviderConfigPath c; cloudProviderNamePath c]
    = Returned cfg /\
    errs <> [].
Proof.
  intros Hcp Hnp Hhard.
  destruct (body_hard_error c L existingConfig w Hnp Hhard) as (errs & w' & Herrs & Hb).
  destruct (Pruned_returns existingConfig _ _ Hcp Hnp) as [cfg Hcfg].
  exists cfg, errs, w'. rewrite Observe_unfold, Hb, Hcfg. done.
Qed.

Lemma sourceCloudConfig_no_failure (L : InfrastructureLister)
    (infrastructure : configv1.Infrastructure) :
  (forall err, ConfigMapLister_Get L machineSpecifiedConfigNamespace
                 machineSpecifiedConfig <> ErrOther err) ->
  exists name namespace key,
    sourceCloudConfig L infrastructure = inl (name, namespace, key).
Proof.
  intros Hno. unfold sourceCloudConfig.
  destruct (ConfigMapLister_Get L _ _) as [cm| |err]; try by eexists _, _, _.
  by destruct (Hno err).
Qed.

(** C4: when the resolved provider is not one of aws, azure, gce, openstack
    and vsphere, the sync is requested with the empty source location
    whatever config-maps exist, no "changed" event is recorded, and, the
    sync succeeding, the returned configuration holds no config-file path. *)
Theorem provider_off_allow_list_has_no_source (c : cloudProviderObserver)
    (L : InfrastructureLister) (existingConfig : option (gmap string value))
    (w : World) (infrastructure : configv1.Infrastructure) (external : bool)
    (cloudProvider : string) :
  cloudProviderConfigPath c <> [] -> cloudProviderNamePath c <> [] ->
  InfrastructureLister_Get L "cluster" = Got infrastructure ->
  isExternal L (configv1.PlatformStatus_ (configv1.Status infrastructure))
    = (external, None) ->
  (forall err, ConfigMapLister_Get L machineSpecifiedConfigNamespace
                 machineSpecifiedConfig <> ErrOther err) ->
  (GetPlatformName (configv1.Platform (configv1.Status infrastructure)) w).1
    = Returned cloudProvider ->
  cloudProvider ∉ validCloudProviders ->
  exists cfg errs w',
    Observe c (InfrastructureListers L) existingConfig w = (Returned (cfg, errs), w') /\
    synced w' = (synced w ++
      [request (destinationOf c) resourcesynccontroller.emptyLocation])%list /\
    (forall e, e ∈ recorded w' -> e ∈ recorded w \/ ~ isChange e) /\
    (ResourceSyncer_SyncConfigMap L (destinationOf c)
       resourcesynccontroller.emptyLocation = None ->
     errs = [] /\
     forall key, NestedStringSlice cfg (cloudProviderConfigPath c)
                 <> Present [cloudProviderConfFilePath key]).
Proof.
  intros Hcp Hnp Hget Hext Hcm Hprov Hnot.
  apply GetPlatformName_resolved in Hprov as ->.
  destruct (sourceCloudConfig_no_failure L infrastructure Hcm)
    as (name & namespace & key & Hsrc).
  eapply observed_without_source; eauto.
Qed.

(** C5, as amended: in external mode the allow-list is applied to the
    in-tree platform name: with a platform that resolves to an allow-listed
    provider, a named source config-map and independent key paths, the sync
    is requested from that config-map and, the sync succeeding, the
    config-file path is written while the provider-name path holds
    "external". *)
Theorem external_mode_keeps_cloud_config (c : cloudProviderObserver)
    (L : InfrastructureLister) (existingConfig : option (gmap string value))
    (w : World) (infrastructure : configv1.Infrastructure)
    (cloudProvider name namespace key : string) :
  independentPaths c ->
  InfrastructureLister_Get L "cluster" = Got infrastructure ->
  isExternal L (configv1.PlatformStatus_ (configv1.Status infrastructure))
    = (true, None) ->
  (GetPlatformName (configv1.Platform (configv1.Status infrastructure)) w).1
    = Returned cloudProvider ->
  cloudProvider ∈ validCloudProviders ->
  sourceCloudConfig L infrastructure = inl (name, namespace, key) ->
  name <> "" ->
  exists cfg errs w',
    Observe c (InfrastructureListers L) existingConfig w = (Returned (cfg, errs), w') /\
    synced w' = (synced w ++
      [request (destinationOf c) (location namespace name)])%list /\
    (ResourceSyncer_SyncConfigMap L (destinationOf c) (location namespace name) = None ->
     NestedStringSlice cfg (cloudProviderConfigPath c)
     = Present [cloudProviderConfFilePath key] /\
     NestedStringSlice cfg (cloudProviderNamePath c) = Present ["external"]).
Proof.
  intros Hind Hget Hext Hprov Hvalid Hsrc Hname.
  apply GetPlatformName_resolved in Hprov as ->.
  exact (observed_with_source c L existingConfig w
           infrastructure true name namespace key Hind Hget Hext Hsrc Hvalid Hname).
Qed.

(** C8, as amended: for a platform that resolves to an allow-listed
    provider (and independent key paths), an existing managed config-map
    kube-cloud-config in openshift-config-managed is the sync source, and the
    config-file path uses the key "cloud.conf"; when its lookup returns
    not-found, the source is the cloud-config reference of the
    infrastructure spec in openshift-config, with its own key, if that
    reference names a config-map, and the empty location if it does not. *)
Theorem managed_config_map_preferred (c : cloudProviderObserver)
    (L : InfrastructureLister) (existingConfig : option (gmap string value))
    (w : World) (infrastructure : configv1.Infrastructure) (external : bool)
    (cloudProvider : string) :
  independentPaths c ->
  InfrastructureLister_Get L "cluster" = Got infrastructure ->
  isExternal L (configv1.PlatformStatus_ (configv1.Status infrastructure))
    = (external, None) ->
  (GetPlatformName (configv1.Platform (configv1.Status infrastructure)) w).1
    = Returned cloudProvider ->
  cloudProvider ∈ validCloudProviders ->
  let reference := configv1.CloudConfig (configv1.Spec infrastructure) in
  exists cfg errs w',
    Observe c (InfrastructureListers L) existingConfig w = (Returned (cfg, errs), w') /\
    (forall cm,
       ConfigMapLister_Get L machineSpecifiedConfigNamespace machineSpecifiedConfig
         = Got cm ->
       synced w' = (synced w ++
         [request (destinationOf c)
            (location machineSpecifiedConfigNamespace machineSpecifiedConfig)])%list /\
       (ResourceSyncer_SyncConfigMap L (destinationOf c)
          (location machineSpecifiedConfigNamespace machineSpecifiedConfig) = None ->
        NestedStringSlice cfg (cloudProviderConfigPath c)
        = Present [cloudProviderConfFilePath "cloud.conf"])) /\
    (ConfigMapLister_Get L machineSpecifiedConfigNamespace machineSpecifiedConfig
       = ErrNotFound ->
     (configv1.Name reference <> "" ->
      synced w' = (synced w ++
        [request (destinationOf c)
           (location configNamespace (configv1.Name reference))])%list /\
      (ResourceSyncer_SyncConfigMap L (destinationOf c)
         (location configNamespace (configv1.Name reference)) = None ->
       NestedStringSlice cfg (cloudProviderConfigPath c)
       = Present [cloudProviderConfFilePath (configv1.Key reference)])) /\
     (configv1.Name reference = "" ->
      synced w' = (synced w ++
        [request (destinationOf c) resourcesynccontroller.emptyLocation])%list)).
Proof.
  intros Hind Hget Hext Hprov Hvalid reference.
  apply GetPlatformName_resolved in Hprov as ->.
  destruct (independentPaths_nonempty c Hind) as [Hcp Hnp].
  destruct (ConfigMapLister_Get L machineSpecifiedConfigNamespace
              machineSpecifiedConfig) as [cm| |err] eqn:Hcm.
  - assert (sourceCloudConfig L infrastructure
            = inl (machineSpecifiedConfig, machineSpecifiedConfigNamespace,
                   "cloud.conf")) as Hsrc.
    { unfold sourceCloudConfig. by rewrite Hcm. }
    destruct (observed_with_source c L existingConfig w _ _ _ _ _
                Hind Hget Hext Hsrc Hvalid) as (cfg & errs & w' & Hrun & Hsync & Hok);
      first done.
    exists cfg, errs, w'. split; first done. split; last done.
    intros _ _. split; first done. intros Hnone. by destruct (Hok Hnone).
  - assert (sourceCloudConfig L infrastructure
            = inl (configv1.Name reference, configNamespace, configv1.Key reference))
      as Hsrc.
    { unfold sourceCloudConfig. by rewrite Hcm. }
    destruct (decide (configv1.Name reference = "")) as [Hempty|Hnamed].
    + destruct (observed_without_source c L existingConfig w _ _ _ _ _
                  Hcp Hnp Hget Hext Hsrc (or_intror Hempty))
        as (cfg & errs & w' & Hrun & Hsync & _).
      exists cfg, errs, w'. split; first done. split; first done.
      intros _. split; done.
    + destruct (observed_with_source c L existingConfig w _ _ _ _ _
                  Hind Hget Hext Hsrc Hvalid Hnamed)
        as (cfg & errs & w' & Hrun & Hsync & Hok).
      exists cfg, errs, w'. split; first done. split; first done.
      intros _. split; last done.
      intros _. split; first done. intros Hnone. by destruct (Hok Hnone).
  - destruct (Observe_total c L existingConfig w Hcp Hnp)
      as (cfg & errs & w' & Hrun).
    exists cfg, errs, w'. done.
Qed.

End Observing.

(** * Further properties of the observer *)

Section Further.
Import unstructured configobserver.

Variable externalEvaluator :
  option configv1.PlatformStatus -> configv1.FeatureGate -> bool * option error.

Abbreviation Observe := (ObserveCloudProviderNames externalEvaluator).
Abbreviation body := (observeBody externalEvaluator).
Abbreviation isExternal := (IsCloudProviderExternal externalEvaluator).

(** ** The external-provider check and the platform name *)

(** X1: [IsCloudProviderExternal] reports external mode exactly when the
    feature gate is found and the evaluator answers yes without an error;
    whenever it returns an error the flag is false, whatever the evaluator
    said, and the error is one of the two wrapped messages. *)
Theorem IsCloudProviderExternal_flag (L : InfrastructureLister)
    (platform : option configv1.PlatformStatus) :
  (isExternal L platform = (true, None) <->
   exists featureGate, FeatureGateLister_Get L "cluster" = Got featureGate /\
     externalEvaluator platform featureGate = (true, None)) /\
  (forall external err, isExternal L platform = (external, Some err) ->
     external = false /\
     exists cause, err = fetchFailure cause \/ err = evaluationFailure cause).
Proof.
  unfold IsCloudProviderExternal.
  destruct (FeatureGateLister_Get L "cluster") as [featureGate| |cause].
  - destruct (externalEvaluator platform featureGate) as [external [cause|]] eqn:Heval.
    + split.
      * split; first done. intros (fg & [= <-] & Hfg). congruence.
      * intros b err [= <- <-]. split; first done. exists cause. by right.
    + split; last done. split.
      * intros [= ->]. by exists featureGate.
      * intros (fg & [= <-] & Hfg). congruence.
  - split; last done. split; first done. by intros (fg & Hfg & _).
  - split.
    + split; first done. by intros (fg & Hfg & _).
    + intros b err [= <- <-]. split; first done. exists cause. by left.
Qed.

Lemma platformWarnings_named (platformType : configv1.PlatformType) :
  resolvedProvider platformType <> "" -> platformWarnings platformType = [].
Proof.
  unfold resolvedProvider, platformWarnings, GetPlatformName.
  repeat (destruct (String.eqb platformType _); [first [done | by intros []] |]).
  by intros [].
Qed.

Lemma validCloudProviders_named (cloudProvider : string) :
  cloudProvider ∈ validCloudProviders -> cloudProvider <> "".
Proof. intros Hin ->. by vm_compute in Hin. Qed.

(** X2: the name [GetPlatformName] returns passes the allow-list of
    [ObserveCloudProviderNames] exactly when it is not empty, and a warning is
    recorded only when the name is empty. *)
Theorem GetPlatformName_allow_listed (platformType : configv1.PlatformType)
    (w : World) :
  exists cloudProvider,
    (GetPlatformName platformType w).1 = Returned cloudProvider /\
    (cloudProvider ∈ validCloudProviders <-> cloudProvider <> "") /\
    (cloudProvider = "" \/ (GetPlatformName platformType w).2 = w).
Proof.
  rewrite GetPlatformName_run. exists (resolvedProvider platformType).
  split; first done. split.
  - split; first apply validCloudProviders_named.
    intros Hne. by destruct (resolvedProvider_range platformType).
  - destruct (decide (resolvedProvider platformType = "")) as [Hempty|Hne];
      first by left.
    right. simpl. rewrite (platformWarnings_named _ Hne). apply recording_nil.
Qed.

(** ** The effects of a call *)

Lemma platformWarnings_shape (platformType : configv1.PlatformType) :
  Forall isWarning (platformWarnings platformType) /\
  (length (platformWarnings platformType) <= 1)%nat.
Proof.
  unfold platformWarnings, GetPlatformName.
  repeat (destruct (String.eqb platformType _);
          [split; simpl; first [lia | by repeat constructor] |]).
  split; simpl; first [lia | by repeat constructor].
Qed.

Lemma sourceLocationFor_cases (cloudProvider namespace name : string) :
  sourceLocationFor cloudProvider namespace name
  = ("", resourcesynccontroller.emptyLocation) \/
  (name <> "" /\ cloudProvider ∈ validCloudProviders /\
   sourceLocationFor cloudProvider namespace name = (name, location namespace name)).
Proof.
  destruct (decide (cloudProvider ∈ validCloudProviders)) as [Hin|Hout].
  - destruct (decide (name = "")) as [->|Hne].
    + left. apply sourceLocationFor_empty. by right.
    + right. split_and!; try done. by apply sourceLocationFor_valid.
  - left. apply sourceLocationFor_empty. by left.
Qed.

Lemma boundedEffects_intro (c : cloudProviderObserver) (w : World)
    (warns changes : list events.Event)
    (reqs : list resourcesynccontroller.SyncRequest) :
  Forall isWarning warns ->
  Forall changeNotice changes ->
  (length changes <= 1)%nat -> (length (warns ++ changes) <= 2)%nat ->
  (reqs = [] \/
   exists source, reqs = [request (destinationOf c) source] /\ usableSource source) ->
  boundedEffects c w (extend w (warns ++ changes) reqs).
Proof. intros. by exists warns, changes, reqs. Qed.

Lemma boundedEffects_warnings (c : cloudProviderObserver) (w : World)
    (warns : list events.Event)
    (reqs : list resourcesynccontroller.SyncRequest) :
  Forall isWarning warns -> (length warns <= 2)%nat ->
  (reqs = [] \/
   exists source, reqs = [request (destinationOf c) source] /\ usableSource source) ->
  boundedEffects c w (extend w warns reqs).
Proof.
  intros Hwarn Hlen Hreqs. rewrite <- (app_nil_r warns).
  apply boundedEffects_intro; rewrite ?app_nil_r; simpl; auto; lia.
Qed.

Lemma changeEvents_shape (c : cloudProviderObserver)
    (existingConfig : option (gmap string value)) (file : string) :
  changeEvents c existingConfig file = [] \/
  changeEvents c existingConfig file = [changeEvent file].
Proof.
  unfold changeEvents.
  destruct (NestedStringSlice existingConfig _) as [l| |err]; try by right.
  destruct (bool_decide _); [by left|by right].
Qed.

Lemma readErrors_length (c : cloudProviderObserver)
    (existingConfig : option (gmap string value)) :
  (length (readErrors c existingConfig) <= 1)%nat.
Proof.
  unfold readErrors. destruct (NestedStringSlice existingConfig _); simpl; lia.
Qed.

Ltac to_extend :=
  rewrite ?recording_is_extend, ?syncing_is_extend, ?extend_extend;
  simpl; rewrite ?app_nil_r.

(** The effects of the body, and the number of errors it returns. *)
Lemma body_effects (c : cloudProviderObserver) (L : InfrastructureLister)
    (existingConfig : option (gmap string value)) (w : World) o w' :
  body c (InfrastructureListers L) existingConfig w = (o, w') ->
  boundedEffects c w w' /\
  match o with
  | Returned (_, errs) => (length errs <= 1)%nat
  | Panicked _ => True
  end.
Proof.
  destruct (InfrastructureLister_Get L "cluster") as [infrastructure| |err] eqn:Hget.
  2:{ rewrite body_not_found by done. intros [= <- <-]. split; last (simpl; lia).
      rewrite recording_is_extend.
      apply boundedEffects_warnings; [by repeat constructor|simpl; lia|by left]. }
  2:{ rewrite (body_infrastructure_error _ _ _ _ _ err) by done.
      intros [= <- <-]. split; last (simpl; lia).
      rewrite <- (extend_nil w) at 2.
      apply boundedEffects_warnings; [done|simpl; lia|by left]. }
  destruct (isExternal L (configv1.PlatformStatus_ (configv1.Status infrastructure)))
    as [external [err|]] eqn:Hext.
  { rewrite (body_external_error _ _ _ _ _ _ _ err Hget Hext).
    intros [= <- <-]. split; last (simpl; lia).
    rewrite recording_is_extend.
    apply boundedEffects_warnings; [by repeat constructor|simpl; lia|by left]. }
  set (platformType := configv1.Platform (configv1.Status infrastructure)).
  destruct (platformWarnings_shape platformType) as [Hwarn Hlen].
  pose proof (observeProviderName_result c external (resolvedProvider platformType))
    as Hname.
  destruct (observeProviderName c external (resolvedProvider platformType) ∅ [])
    as [[obs errs]|why] eqn:Hobs.
  2:{ rewrite (body_name_panic _ _ _ _ _ _ _ why Hget Hext Hobs).
      intros [= <- <-]. split; last done. fold platformType.
      rewrite recording_is_extend.
      apply boundedEffects_warnings; [done|lia|by left]. }
  destruct Hname as (-> & Hleaves & _).
  rewrite (body_main externalEvaluator c L existingConfig w _ _ _ Hget Hext Hobs).
  cbv zeta. fold platformType.
  destruct (sourceCloudConfig L infrastructure) as [[[name namespace] key]|err].
  2:{ intros [= <- <-]. split; last (simpl; lia).
      rewrite recording_is_extend.
      apply boundedEffects_warnings; [done|lia|by left]. }
  assert (exists name' source,
            sourceLocationFor (resolvedProvider platformType) namespace name
            = (name', source) /\ usableSource source) as (name' & source & -> & Husable).
  { destruct (sourceLocationFor_cases (resolvedProvider platformType) namespace name)
      as [->|(Hne & _ & ->)]; eexists _, _; (split; first done).
    - by left.
    - by right. }
  assert (exists source', [request (destinationOf c) source]
                          = [request (destinationOf c) source'] /\ usableSource source')
    as Hreq by (by exists source).
  destruct (ResourceSyncer_SyncConfigMap L (destinationOf c) source) as [err|].
  { intros [= <- <-]. split; last (simpl; lia). to_extend.
    apply boundedEffects_warnings; [done|lia|by right]. }
  destruct (String.length name' =? 0)%nat.
  { intros [= <- <-]. split; last (simpl; lia). to_extend.
    apply boundedEffects_warnings; [done|lia|by right]. }
  destruct (SetNestedStringSlice obs [cloudProviderConfFilePath key]
              (cloudProviderConfigPath c)) as [[obs' [err|]]|why].
  - intros [= <- <-]. split; last (simpl; lia). to_extend.
    apply boundedEffects_warnings; [|rewrite length_app; simpl; lia|by right].
    apply Forall_app. split; first done. by repeat constructor.
  - intros [= <- <-]. split; last apply readErrors_length. to_extend.
    apply boundedEffects_intro; [done| | | |by right].
    + destruct (changeEvents_shape c existingConfig (cloudProviderConfFilePath key))
        as [->| ->]; repeat constructor. by exists key.
    + destruct (changeEvents_shape c existingConfig (cloudProviderConfFilePath key))
        as [->| ->]; simpl; lia.
    + rewrite length_app.
      destruct (changeEvents_shape c existingConfig (cloudProviderConfFilePath key))
        as [->| ->]; simpl; lia.
  - intros [= <- <-]. split; last done. to_extend.
    apply boundedEffects_warnings; [done|lia|by right].
Qed.

Lemma body_other_listers (c : cloudProviderObserver)
    (existingConfig : option (gmap string value)) (w : World) :
  body c OtherListers existingConfig w
  = (Panicked "interface conversion: not cloudprovider.InfrastructureLister", w).
Proof. reflexivity. Qed.

(** A call has the effects of its body and returns the errors of its body. *)
Lemma Observe_effects (c : cloudProviderObserver) (genericListers : Listers)
    (existingConfig : option (gmap string value)) (w : World) o w' :
  Observe c genericListers existingConfig w = (o, w') ->
  boundedEffects c w w' /\
  match o with
  | Returned (_, errs) => (length errs <= 1)%nat
  | Panicked _ => True
  end.
Proof.
  rewrite Observe_unfold. destruct genericListers as [|L].
  - rewrite body_other_listers. intros [= <- <-]. split; last done.
    rewrite <- (extend_nil w) at 2.
    apply boundedEffects_warnings; [done|simpl; lia|by left].
  - destruct (body c (InfrastructureListers L) existingConfig w) as [o0 w0] eqn:Hbody.
    apply body_effects in Hbody as [Heff Herrs].
    destruct o0 as [[ret errs]|why].
    + destruct (Pruned ret _) as [r|why]; intros [= <- <-]; by split.
    + intros [= <- <-]. by split.
Qed.

(** X3: whatever the listers, the prior configuration and the outcome, a
    call of an observer built by [NewCloudProviderObserver] requests at most
    one sync, to the config-map "cloud-config" of the target namespace, from
    the empty location or from a named config-map; it never drops a request
    already made. *)
Theorem NewCloudProviderObserver_syncs_to_target (targetNamespaceName : string)
    (cloudProviderNamePath cloudProviderConfigPath : list string)
    (genericListers : Listers) (existingConfig : option (gmap string value))
    (w : World) o w' :
  NewCloudProviderObserver externalEvaluator targetNamespaceName
    cloudProviderNamePath cloudProviderConfigPath genericListers existingConfig w
  = (o, w') ->
  synced w' = synced w \/
  exists source,
    synced w' = (synced w ++
      [request (location targetNamespaceName "cloud-config") source])%list /\
    usableSource source.
Proof.
  unfold NewCloudProviderObserver. intros Hrun.
  apply Observe_effects in Hrun as [(warns & changes & reqs & -> & _ & _ & _ & _ & Hreqs) _].
  simpl. destruct Hreqs as [->|(source & -> & Husable)].
  - left. apply app_nil_r.
  - right. by exists source.
Qed.

(** X4: a call records at most two events, after those already recorded:
    warnings first, then at most one "changed" event. *)
Theorem Observe_records_at_most_two (c : cloudProviderObserver)
    (genericListers : Listers) (existingConfig : option (gmap string value))
    (w : World) o w' :
  Observe c genericListers existingConfig w = (o, w') ->
  exists warns changes,
    recorded w' = (recorded w ++ warns ++ changes)%list /\
    Forall isWarning warns /\ Forall changeNotice changes /\
    (length changes <= 1)%nat /\ (length (warns ++ changes) <= 2)%nat.
Proof.
  intros Hrun.
  apply Observe_effects in Hrun
    as [(warns & changes & reqs & -> & Hwarn & Hchange & Hone & Htwo & _) _].
  by exists warns, changes.
Qed.

(** X5: a call that returns reports at most one error: the errors of a run
    are never accumulated, and writing the provider name into the fresh
    configuration cannot fail. *)
Theorem Observe_at_most_one_error (c : cloudProviderObserver)
    (genericListers : Listers) (existingConfig : option (gmap string value))
    (w : World) cfg errs w' :
  Observe c genericListers existingConfig w = (Returned (cfg, errs), w') ->
  (length errs <= 1)%nat.
Proof. intros Hrun. by apply Observe_effects in Hrun as [_ Herrs]. Qed.

(** ** When the sync is requested *)

Lemma Observe_world (c : cloudProviderObserver) (genericListers : Listers)
    (existingConfig : option (gmap string value)) (w : World) :
  (Observe c genericListers existingConfig w).2
  = (body c genericListers existingConfig w).2.
Proof.
  rewrite Observe_unfold.
  destruct (body c genericListers existingConfig w) as [[[ret errs]|why] w0];
    last done.
  by destruct (Pruned ret _).
Qed.

Lemma app_one_ne {A} (l : list A) (x : A) : (l ++ [x])%list <> l.
Proof.
  intros H. apply (f_equal length) in H. rewrite length_app in H. simpl in H. lia.
Qed.

(** X6: with a non-empty provider-name path, a call requests a sync exactly
    when the infrastructure is found, the external-provider check succeeds
    and the lookup of the managed config-map does not fail; whether the sync
    itself then fails, and whether a config file is written, does not
    matter. *)
Theorem sync_requested_iff (c : cloudProviderObserver) (L : InfrastructureLister)
    (existingConfig : option (gmap string value)) (w : World) :
  cloudProviderNamePath c <> [] ->
  (exists source,
     synced (Observe c (InfrastructureListers L) existingConfig w).2
     = (synced w ++ [request (destinationOf c) source])%list) <->
  (exists infrastructure external,
     InfrastructureLister_Get L "cluster" = Got infrastructure /\
     isExternal L (configv1.PlatformStatus_ (configv1.Status infrastructure))
       = (external, None) /\
     forall err, ConfigMapLister_Get L machineSpecifiedConfigNamespace
                   machineSpecifiedConfig <> ErrOther err).
Proof.
  intros Hnp. rewrite Observe_world.
  assert (forall source : resourcesynccontroller.ResourceLocation,
             synced w <> (synced w ++ [request (destinationOf c) source])%list)
    as Hnone.
  { intros source H. symmetry in H. by apply app_one_ne in H. }
  destruct (InfrastructureLister_Get L "cluster") as [infrastructure| |err] eqn:Hget.
  2:{ rewrite body_not_found by done. simpl. split.
      - intros [source H]. by apply Hnone in H.
      - by intros (i & e & Hi & _). }
  2:{ rewrite (body_infrastructure_error _ _ _ _ _ err) by done. simpl. split.
      - intros [source H]. by apply Hnone in H.
      - by intros (i & e & Hi & _). }
  destruct (isExternal L (configv1.PlatformStatus_ (configv1.Status infrastructure)))
    as [external [err|]] eqn:Hext.
  { rewrite (body_external_error _ _ _ _ _ _ _ err Hget Hext). simpl. split.
    - intros [source H]. by apply Hnone in H.
    - intros (i & e & [= <-] & He & _). congruence. }
  set (platformType := configv1.Platform (configv1.Status infrastructure)).
  destruct (observeProviderName_fresh c external (resolvedProvider platformType) Hnp)
    as (obs & Hobs & _).
  rewrite (body_main externalEvaluator c L existingConfig w _ _ _ Hget Hext Hobs).
  cbv zeta. fold platformType. unfold sourceCloudConfig.
  destruct (ConfigMapLister_Get L machineSpecifiedConfigNamespace
              machineSpecifiedConfig) as [managed| |err] eqn:Hmanaged.
  3:{ simpl. split.
      - intros [source H]. by apply Hnone in H.
      - intros (i & e & _ & _ & Herr). by destruct (Herr err). }
  all: split; [intros _; by exists infrastructure, external|intros _].
  all: destruct (sourceLocationFor _ _ _) as [name' source]; exists source.
  all: destruct (ResourceSyncer_SyncConfigMap L (destinationOf c) source); first done.
  all: destruct (String.length name' =? 0)%nat; first done.
  all: by destruct (SetNestedStringSlice obs _ _) as [[obs' [err|]]|why].
Qed.

(** ** The prior configuration *)

(** X7: the prior configuration matters only where errors are reported: when
    a call reports no error, a call with any other prior configuration, in
    any other world, returns the same configuration and requests the same
    sync; the only error it can report is that of reading the other prior
    configuration at the config-file path. *)
Theorem Observe_without_error_ignores_prior (c : cloudProviderObserver)
    (genericListers : Listers) (existingConfig : option (gmap string value))
    (w : World) cfg w' (existingConfig2 : option (gmap string value)) (w2 : World) :
  Observe c genericListers existingConfig w = (Returned (cfg, []), w') ->
  exists errs2 w2' reqs,
    Observe c genericListers existingConfig2 w2 = (Returned (cfg, errs2), w2') /\
    synced w' = (synced w ++ reqs)%list /\ synced w2' = (synced w2 ++ reqs)%list /\
    (errs2 = [] \/
     exists err, NestedStringSlice existingConfig2 (cloudProviderConfigPath c)
                 = Invalid err /\ errs2 = [err]).
Proof.
  intros Hrun.
  apply Observe_inv in Hrun as (L & ret & -> & Hbody & Hpruned).
  assert (readErrors c existingConfig2 = [] \/
          exists err, NestedStringSlice existingConfig2 (cloudProviderConfigPath c)
                      = Invalid err /\ readErrors c existingConfig2 = [err]) as Hread.
  { unfold readErrors.
    destruct (NestedStringSlice existingConfig2 _) as [l| |err];
      [by left|by left|right; by exists err]. }
  destruct (body_shape externalEvaluator c L)
    as (evs & reqs & _ & [(why & _ & Hall)|[(errs & Hne & Hall)
                         |[(obs & _ & Hall)|(obs & file & _ & _ & Hall)]]]).
  - rewrite Hall in Hbody. discriminate Hbody.
  - rewrite Hall in Hbody. injection Hbody as _ Herrs _. by destruct Hne.
  - rewrite Hall in Hbody. injection Hbody as <- <-.
    exists [], (extend w2 evs reqs), reqs.
    rewrite Observe_unfold, Hall, Hpruned. split_and!; try done. by left.
  - rewrite Hall in Hbody. injection Hbody as <- _ <-.
    exists (readErrors c existingConfig2),
      (extend w2 (evs ++ changeEvents c existingConfig2 file) reqs), reqs.
    rewrite Observe_unfold, Hall, Hpruned. split_and!; done.
Qed.

(** X8: once the file is written (an allow-listed provider, a named source
    config-map, independent key paths, a sync that succeeds), the read of
    the prior configuration decides the rest: the "changed" event is
    recorded unless the prior configuration holds exactly this file at the
    config-file path; a prior value that cannot be read is reported as the
    one error of the call, and the new file is returned all the same. *)
Theorem prior_read_decides_change_event (c : cloudProviderObserver)
    (L : InfrastructureLister) (existingConfig : option (gmap string value))
    (w : World) (infrastructure : configv1.Infrastructure) (external : bool)
    (cloudProvider name namespace key : string) :
  independentPaths c ->
  InfrastructureLister_Get L "cluster" = Got infrastructure ->
  isExternal L (configv1.PlatformStatus_ (configv1.Status infrastructure))
    = (external, None) ->
  sourceCloudConfig L infrastructure = inl (name, namespace, key) ->
  (GetPlatformName (configv1.Platform (configv1.Status infrastructure)) w).1
    = Returned cloudProvider ->
  cloudProvider ∈ validCloudProviders ->
  name <> "" ->
  ResourceSyncer_SyncConfigMap L (destinationOf c) (location namespace name) = None ->
  exists cfg errs w',
    Observe c (InfrastructureListers L) existingConfig w = (Returned (cfg, errs), w') /\
    NestedStringSlice cfg (cloudProviderConfigPath c)
    = Present [cloudProviderConfFilePath key] /\
    match NestedStringSlice existingConfig (cloudProviderConfigPath c) with
    | Present l =>
        errs = [] /\
        recorded w' = (recorded w ++
          if bool_decide (l = [cloudProviderConfFilePath key]) then []
          else [changeEvent (cloudProviderConfFilePath key)])%list
    | Absent =>
        errs = [] /\
        recorded w' = (recorded w ++ [changeEvent (cloudProviderConfFilePath key)])%list
    | Invalid err =>
        errs = [err] /\
        recorded w' = (recorded w ++ [changeEvent (cloudProviderConfFilePath key)])%list
    end.
Proof.
  intros Hind Hget Hext Hsrc Hprovider Hvalid Hname Hsync.
  apply GetPlatformName_resolved in Hprovider as ->.
  destruct (independentPaths_nonempty c Hind) as [Hcp Hnp].
  set (platformType := configv1.Platform (configv1.Status infrastructure)) in *.
  destruct (observeProviderName_fresh c external (resolvedProvider platformType) Hnp)
    as (obs & Hobs & Hleaves & Hat).
  rewrite Observe_unfold.
  rewrite (body_main externalEvaluator c L existingConfig w _ _ _ Hget Hext Hobs).
  cbv zeta. fold platformType. rewrite Hsrc.
  rewrite (sourceLocationFor_valid _ _ _ Hvalid Hname), Hsync.
  rewrite (platformWarnings_named platformType (validCloudProviders_named _ Hvalid)).
  assert ((String.length name =? 0)%nat = false) as ->.
  { destruct (String.length name =? 0)%nat eqn:Hlen; last done.
    by apply length_eqb_zero in Hlen. }
  pose proof (SetNestedStringSlice_result _ obs (cloudProviderConfFilePath key)
                (cloudProviderConfigPath c) Hleaves) as Hset.
  destruct (SetNestedStringSlice obs [cloudProviderConfFilePath key]
              (cloudProviderConfigPath c)) as [[obs' [err|]]|why]; last done.
  { exfalso. destruct Hset as (q & r & x & Hq & _ & Hx & Hleaf).
    destruct (Hleaves _ _ Hx Hleaf) as [-> _].
    destruct Hind as [_ Hind]. apply Hind. rewrite Hq. by apply prefix_app_r. }
  destruct Hset as (_ & Hfile & _).
  destruct (Pruned_returns (Some obs') _ _ Hcp Hnp) as [r Hr]. rewrite Hr.
  eexists _, _, _. split; first done. split.
  { apply NestedStringSlice_slice. by eapply Pruned_first. }
  unfold readErrors, changeEvents. simpl.
  destruct (NestedStringSlice existingConfig (cloudProviderConfigPath c))
    as [l| |err]; split; try done; by rewrite app_nil_r.
Qed.

(** ** A failed external-provider check *)

(** X9: when the feature gate cannot be fetched, or the evaluator fails, the
    observer returns the pruned prior configuration with that one wrapped
    error, records one warning that quotes it, and requests no sync. *)
Theorem external_check_failure_is_reported (c : cloudProviderObserver)
    (L : InfrastructureLister) (existingConfig : option (gmap string value))
    (w : World) (infrastructure : configv1.Infrastructure) (cause err : error) :
  cloudProviderConfigPath c <> [] -> cloudProviderNamePath c <> [] ->
  InfrastructureLister_Get L "cluster" = Got infrastructure ->
  (FeatureGateLister_Get L "cluster" = ErrOther cause /\ err = fetchFailure cause) \/
  (exists featureGate external,
     FeatureGateLister_Get L "cluster" = Got featureGate /\
     externalEvaluator (configv1.PlatformStatus_ (configv1.Status infrastructure))
       featureGate = (external, Some cause) /\
     err = evaluationFailure cause) ->
  exists cfg,
    Observe c (InfrastructureListers L) existingConfig w
    = (Returned (cfg, [err]), recording w [externalStateWarning err]) /\
    Pruned existingConfig [cloudProviderConfigPath c; cloudProviderNamePath c]
    = Returned cfg.
Proof.
  intros Hcp Hnp Hget Hfail.
  assert (isExternal L (configv1.PlatformStatus_ (configv1.Status infrastructure))
          = (false, Some err)) as Hext.
  { unfold IsCloudProviderExternal.
    destruct Hfail as [[-> ->]|(featureGate & external & -> & -> & ->)]; done. }
  destruct (Pruned_returns existingConfig _ _ Hcp Hnp) as [cfg Hcfg].
  exists cfg. split; last done.
  rewrite Observe_unfold, (body_external_error _ _ _ _ _ _ _ err Hget Hext).
  by rewrite Hcfg.
Qed.

(** ** The provider name without a sync source *)

(** X10: without a source config-map (the provider is not allow-listed, or
    no config-map is named) and with a sync that succeeds, the observer
    reports no error and returns the provider name alone: "external" in
    external mode, else the in-tree provider if there is one, else the empty
    configuration. *)
Theorem provider_name_without_source (c : cloudProviderObserver)
    (L : InfrastructureLister) (existingConfig : option (gmap string value))
    (w : World) (infrastructure : configv1.Infrastructure) (external : bool)
    (cloudProvider name namespace key : string) :
  cloudProviderConfigPath c <> [] -> cloudProviderNamePath c <> [] ->
  InfrastructureLister_Get L "cluster" = Got infrastructure ->
  isExternal L (configv1.PlatformStatus_ (configv1.Status infrastructure))
    = (external, None) ->
  sourceCloudConfig L infrastructure = inl (name, namespace, key) ->
  (GetPlatformName (configv1.Platform (configv1.Status infrastructure)) w).1
    = Returned cloudProvider ->
  cloudProvider ∉ validCloudProviders \/ name = "" ->
  ResourceSyncer_SyncConfigMap L (destinationOf c)
    resourcesynccontroller.emptyLocation = None ->
  exists cfg w',
    Observe c (InfrastructureListers L) existingConfig w
    = (Returned (Some cfg, []), w') /\
    NestedFieldNoCopy (Some cfg) (cloudProviderConfigPath c) <> Present (slice
      (cloudProviderConfFilePath key)) /\
    if external || negb (String.eqb cloudProvider "") then
      NestedStringSlice (Some cfg) (cloudProviderNamePath c)
      = Present [writtenName external cloudProvider]
    else cfg = ∅.
Proof.
  intros Hcp Hnp Hget Hext Hsrc Hprovider Hno Hsync.
  apply GetPlatformName_resolved in Hprovider.
  set (platformType := configv1.Platform (configv1.Status infrastructure)) in *.
  destruct (observeProviderName_fresh c external cloudProvider Hnp)
    as (obs & Hobs & Hleaves & Hat).
  pose proof Hobs as Hresolved. rewrite Hprovider in Hresolved.
  rewrite Observe_unfold.
  rewrite (body_main externalEvaluator c L existingConfig w _ _ _ Hget Hext Hresolved).
  cbv zeta. fold platformType. rewrite <- Hprovider, Hsrc.
  rewrite (sourceLocationFor_empty _ _ _ Hno), Hsync. simpl.
  rewrite (Pruned_two _ _ _ Hcp Hnp).
  eexists _, _. split; first done.
  assert (Pruned (Some obs) [cloudProviderConfigPath c; cloudProviderNamePath c]
          = Returned (Some (pruneStep (Some obs)
                              (pruneStep (Some obs) ∅ (cloudProviderConfigPath c))
                              (cloudProviderNamePath c)))) as Hr
    by exact (Pruned_two (Some obs) _ _ Hcp Hnp).
  split.
  { intros Hfile. apply (Pruned_leaf _ _ _ _ _ _ Hr) in Hfile; last done.
    destruct (Hleaves _ _ Hfile eq_refl) as [_ [= Heq]].
    symmetry in Heq. rewrite Hprovider in Heq. by apply writtenName_not_file in Heq. }
  destruct (external || negb (String.eqb cloudProvider "")) eqn:Hwritten.
  - apply NestedStringSlice_slice. eapply Pruned_second; first exact Hr.
    apply Hat. destruct external; first by left.
    right. simpl in Hwritten. apply negb_true_iff, String.eqb_neq in Hwritten. done.
  - apply orb_false_iff in Hwritten as [-> Hempty].
    apply negb_false_iff, String.eqb_eq in Hempty.
    unfold observeProviderName in Hobs. rewrite Hempty in Hobs. simpl in Hobs.
    injection Hobs as <-.
    rewrite pruneStep_of_empty by done. by rewrite pruneStep_of_empty.
Qed.

(** ** Key paths that are not independent, or empty *)

Lemma setFrom_blocked (rest : list string) :
  forall (m : gmap string value) (v : value) (seen : list string) (f : string)
         (q r s : list string) (x : value),
  f :: rest = (q ++ r)%list -> r <> [] ->
  nestedFrom (VMap m) s q = Present x -> is_map x = false ->
  exists m' err, setFrom m v seen f rest = (m', Some err).
Proof.
  induction rest as [|g rest IH]; intros m v seen f q r s x Hq Hr Hx Hleaf.
  - destruct q as [|f' q]; simpl in Hq.
    + simpl in Hx. injection Hx as <-. done.
    + injection Hq as _ Hq. symmetry in Hq. apply app_eq_nil in Hq as [_ ->]. done.
  - destruct q as [|f' q].
    + simpl in Hx. injection Hx as <-. done.
    + simpl in Hq. injection Hq as <- Hq.
      rewrite nestedFrom_cons in Hx. simpl.
      destruct (m !! f) as [y|]; last done.
      destruct y as [| | | | | |vm]; try by eexists _, _.
      destruct (IH vm v (seen ++ [f])%list g q r (s ++ [f])%list x Hq Hr Hx Hleaf)
        as (m' & err & ->).
      by eexists _, _.
Qed.

(** X11: a config-file path that lies below the provider-name path cannot be
    written once the name is: with an allow-listed provider and a named
    source config-map the sync is requested and succeeds, and still the call
    ends with the pruned prior configuration, one error and the warning that
    quotes it. *)
Theorem config_path_below_name_path_fails (c : cloudProviderObserver)
    (L : InfrastructureLister) (existingConfig : option (gmap string value))
    (w : World) (infrastructure : configv1.Infrastructure) (external : bool)
    (cloudProvider name namespace key : string) (below : list string) :
  cloudProviderNamePath c <> [] -> below <> [] ->
  cloudProviderConfigPath c = (cloudProviderNamePath c ++ below)%list ->
  InfrastructureLister_Get L "cluster" = Got infrastructure ->
  isExternal L (configv1.PlatformStatus_ (configv1.Status infrastructure))
    = (external, None) ->
  sourceCloudConfig L infrastructure = inl (name, namespace, key) ->
  (GetPlatformName (configv1.Platform (configv1.Status infrastructure)) w).1
    = Returned cloudProvider ->
  cloudProvider ∈ validCloudProviders ->
  name <> "" ->
  ResourceSyncer_SyncConfigMap L (destinationOf c) (location namespace name) = None ->
  exists cfg err,
    Observe c (InfrastructureListers L) existingConfig w
    = (Returned (cfg, [err]),
       {| recorded := recorded w ++ [failedSettingWarning err];
          synced := synced w ++
            [request (destinationOf c) (location namespace name)] |}) /\
    Pruned existingConfig [cloudProviderConfigPath c; cloudProviderNamePath c]
    = Returned cfg.
Proof.
  intros Hnp Hbelow Hcfg Hget Hext Hsrc Hprovider Hvalid Hname Hsync.
  apply GetPlatformName_resolved in Hprovider as ->.
  assert (cloudProviderConfigPath c <> []) as Hcp.
  { rewrite Hcfg. intros H. by apply app_eq_nil in H as [_ H]. }
  set (platformType := configv1.Platform (configv1.Status infrastructure)) in *.
  destruct (observeProviderName_fresh c external (resolvedProvider platformType) Hnp)
    as (obs & Hobs & Hleaves & Hat).
  rewrite Observe_unfold.
  rewrite (body_main externalEvaluator c L existingConfig w _ _ _ Hget Hext Hobs).
  cbv zeta. fold platformType. rewrite Hsrc.
  rewrite (sourceLocationFor_valid _ _ _ Hvalid Hname), Hsync.
  rewrite (platformWarnings_named platformType (validCloudProviders_named _ Hvalid)).
  assert ((String.length name =? 0)%nat = false) as ->.
  { destruct (String.length name =? 0)%nat eqn:Hlen; last done.
    by apply length_eqb_zero in Hlen. }
  destruct (cloudProviderConfigPath c) as [|f rest] eqn:Hpath; first done.
  rewrite SetNestedStringSlice_cons.
  destruct (setFrom_blocked rest obs (slice (cloudProviderConfFilePath key)) [] f
              (cloudProviderNamePath c) below []
              (slice (writtenName external (resolvedProvider platformType))))
    as (m' & err & ->); [done|done| |done|].
  { apply Hat. right. by apply validCloudProviders_named. }
  rewrite <- Hpath in *.
  destruct (Pruned_returns existingConfig _ _ Hcp Hnp) as [cfg Hpruned].
  rewrite Hpruned. exists cfg, err. split; last done.
  unfold failedSettingWarning, recording, syncing. simpl. by rewrite app_nil_r.
Qed.

(** X12: when the provider-name path is the config-file path, or lies below
    it, the file written second replaces the provider name: the returned
    configuration holds the file at the config-file path and no longer the
    provider name at the provider-name path. *)
Theorem config_path_above_name_path_wins (c : cloudProviderObserver)
    (L : InfrastructureLister) (existingConfig : option (gmap string value))
    (w : World) (infrastructure : configv1.Infrastructure) (external : bool)
    (cloudProvider name namespace key : string) (below : list string) :
  cloudProviderConfigPath c <> [] ->
  cloudProviderNamePath c = (cloudProviderConfigPath c ++ below)%list ->
  InfrastructureLister_Get L "cluster" = Got infrastructure ->
  isExternal L (configv1.PlatformStatus_ (configv1.Status infrastructure))
    = (external, None) ->
  sourceCloudConfig L infrastructure = inl (name, namespace, key) ->
  (GetPlatformName (configv1.Platform (configv1.Status infrastructure)) w).1
    = Returned cloudProvider ->
  cloudProvider ∈ validCloudProviders ->
  name <> "" ->
  ResourceSyncer_SyncConfigMap L (destinationOf c) (location namespace name) = None ->
  exists cfg errs w',
    Observe c (InfrastructureListers L) existingConfig w = (Returned (cfg, errs), w') /\
    NestedStringSlice cfg (cloudProviderConfigPath c)
    = Present [cloudProviderConfFilePath key] /\
    NestedStringSlice cfg (cloudProviderNamePath c)
    <> Present [writtenName external cloudProvider].
Proof.
  intros Hcp Hbelow Hget Hext Hsrc Hprovider Hvalid Hname Hsync.
  apply GetPlatformName_resolved in Hprovider as ->.
  assert (cloudProviderNamePath c <> []) as Hnp.
  { rewrite Hbelow. intros H. by apply app_eq_nil in H as [H _]. }
  set (platformType := configv1.Platform (configv1.Status infrastructure)) in *.
  destruct (observeProviderName_fresh c external (resolvedProvider platformType) Hnp)
    as (obs & Hobs & Hleaves & Hat).
  rewrite Observe_unfold.
  rewrite (body_main externalEvaluator c L existingConfig w _ _ _ Hget Hext Hobs).
  cbv zeta. fold platformType. rewrite Hsrc.
  rewrite (sourceLocationFor_valid _ _ _ Hvalid Hname), Hsync.
  assert ((String.length name =? 0)%nat = false) as ->.
  { destruct (String.length name =? 0)%nat eqn:Hlen; last done.
    by apply length_eqb_zero in Hlen. }
  pose proof (SetNestedStringSlice_result _ obs (cloudProviderConfFilePath key)
                (cloudProviderConfigPath c) Hleaves) as Hset.
  destruct (SetNestedStringSlice obs [cloudProviderConfFilePath key]
              (cloudProviderConfigPath c)) as [[obs' [err|]]|why]; last done.
  { exfalso. destruct Hset as (q & r & x & Hq & Hr & Hx & Hleaf).
    destruct (Hleaves _ _ Hx Hleaf) as [-> _].
    rewrite Hq in Hbelow at 1. apply (f_equal length) in Hbelow.
    rewrite !length_app in Hbelow.
    destruct r; first done. simpl in Hbelow. lia. }
  destruct Hset as (_ & Hfile & _).
  destruct (Pruned_returns (Some obs') _ _ Hcp Hnp) as [r Hr]. rewrite Hr.
  eexists _, _, _. split; first done. split.
  { apply NestedStringSlice_slice. by eapply Pruned_first. }
  intros Hwritten.
  apply (Pruned_NestedStringSlice _ _ _ _ _ _ Hr) in Hwritten.
  apply NestedStringSlice_Present in Hwritten as (vl & Hvl & Hstr).
  unfold NestedFieldNoCopy in Hvl. simpl in Hvl.
  rewrite Hbelow, nestedFrom_app, Hfile in Hvl.
  apply slice_leaf in Hvl as [_ [= ->]]. simpl in Hstr.
  injection Hstr as Hstr. symmetry in Hstr. by apply writtenName_not_file in Hstr.
Qed.

(** X13: with an empty provider-name path the write of the name panics: in
    external mode, or with an in-tree provider, every call on a found
    infrastructure panics, after the warnings of the platform name and
    before any sync request. *)
Theorem empty_name_path_panics (c : cloudProviderObserver)
    (L : InfrastructureLister) (existingConfig : option (gmap string value))
    (w : World) (infrastructure : configv1.Infrastructure) (external : bool)
    (cloudProvider : string) :
  cloudProviderNamePath c = [] ->
  InfrastructureLister_Get L "cluster" = Got infrastructure ->
  isExternal L (configv1.PlatformStatus_ (configv1.Status infrastructure))
    = (external, None) ->
  (GetPlatformName (configv1.Platform (configv1.Status infrastructure)) w).1
    = Returned cloudProvider ->
  external = true \/ cloudProvider <> "" ->
  Observe c (InfrastructureListers L) existingConfig w
  = (Panicked "slice bounds out of range [:-1]",
     (GetPlatformName (configv1.Platform (configv1.Status infrastructure)) w).2).
Proof.
  intros Hnp Hget Hext Hprovider Hwritten.
  apply GetPlatformName_resolved in Hprovider as ->.
  rewrite GetPlatformName_run. simpl.
  set (platformType := configv1.Platform (configv1.Status infrastructure)) in *.
  assert (observeProviderName c external (resolvedProvider platformType) ∅ []
          = Panicked "slice bounds out of range [:-1]") as Hobs.
  { unfold observeProviderName. rewrite Hnp.
    destruct external; first done.
    destruct Hwritten as [|Hne]; first done.
    destruct (resolvedProvider platformType); done. }
  rewrite Observe_unfold.
  by rewrite (body_name_panic _ _ _ _ _ _ _ _ Hget Hext Hobs).
Qed.

(** X14: with an empty config-file path the write of the file panics, after
    the sync was requested: an allow-listed provider and a named source
    config-map make every call panic once the sync succeeded. *)
Theorem empty_config_path_panics (c : cloudProviderObserver)
    (L : InfrastructureLister) (existingConfig : option (gmap string value))
    (w : World) (infrastructure : configv1.Infrastructure) (external : bool)
    (cloudProvider name namespace key : string) :
  cloudProviderConfigPath c = [] -> cloudProviderNamePath c <> [] ->
  InfrastructureLister_Get L "cluster" = Got infrastructure ->
  isExternal L (configv1.PlatformStatus_ (configv1.Status infrastructure))
    = (external, None) ->
  sourceCloudConfig L infrastructure = inl (name, namespace, key) ->
  (GetPlatformName (configv1.Platform (configv1.Status infrastructure)) w).1
    = Returned cloudProvider ->
  cloudProvider ∈ validCloudProviders ->
  name <> "" ->
  ResourceSyncer_SyncConfigMap L (destinationOf c) (location namespace name) = None ->
  Observe c (InfrastructureListers L) existingConfig w
  = (Panicked "slice bounds out of range [:-1]",
     {| recorded := recorded w;
        synced := synced w ++
          [request (destinationOf c) (location namespace name)] |}).
Proof.
  intros Hcp Hnp Hget Hext Hsrc Hprovider Hvalid Hname Hsync.
  apply GetPlatformName_resolved in Hprovider as ->.
  set (platformType := configv1.Platform (configv1.Status infrastructure)) in *.
  destruct (observeProviderName_fresh c external (resolvedProvider platformType) Hnp)
    as (obs & Hobs & _).
  rewrite Observe_unfold.
  rewrite (body_main externalEvaluator c L existingConfig w _ _ _ Hget Hext Hobs).
  cbv zeta. fold platformType. rewrite Hsrc.
  rewrite (sourceLocationFor_valid _ _ _ Hvalid Hname), Hsync.
  rewrite (platformWarnings_named platformType (validCloudProviders_named _ Hvalid)).
  assert ((String.length name =? 0)%nat = false) as ->.
  { destruct (String.length name =? 0)%nat eqn:Hlen; last done.
    by apply length_eqb_zero in Hlen. }
  rewrite Hcp. unfold recording, syncing. simpl. by rewrite app_nil_r.
Qed.

End Further.

(** * The errors a call returns *)

Section Errors.
Import unstructured configobserver.

Variable externalEvaluator :
  option configv1.PlatformStatus -> configv1.FeatureGate -> bool * option error.

Abbreviation Observe := (ObserveCloudProviderNames externalEvaluator).
Abbreviation body := (observeBody externalEvaluator).
Abbreviation isExternal := (IsCloudProviderExternal externalEvaluator).





End Errors.

(** * The properties at the scenarios *)

Lemma awsCluster_run :
  ObserveCloudProviderNames gateEvaluator apiServerObserver
    (InfrastructureListers awsCluster) None noWorld =
  (Returned (awsObserved, []),
   {| recorded := [changeEvent (cloudProviderConfFilePath "config")];
      synced := [request (destinationOf apiServerObserver)
                   (location configNamespace "cloud-provider-config")] |}).
Proof. vm_compute. reflexivity. Qed.

Lemma apiServerObserver_independent : independentPaths apiServerObserver.
Proof. split; intros [r Hr]; discriminate Hr. Qed.

Lemma hard_error_returns_pruned_prior_witness :
  exists cfg errs w',
    ObserveCloudProviderNames gateEvaluator apiServerObserver
      (InfrastructureListers unreachableCluster) priorWithExtraKey noWorld
    = (Returned (cfg, errs), w') /\
    configobserver.Pruned priorWithExtraKey
      [cloudProviderConfigPath apiServerObserver; cloudProviderNamePath apiServerObserver]
    = Returned cfg /\
    errs <> [].
Proof.
  apply hard_error_returns_pruned_prior; [done|done|].
  apply (infrastructureLookupFails _ _ _ "connection refused"). reflexivity.
Defined.

(** C1 is false as stated: on a failed infrastructure lookup the returned
    configuration is not the prior configuration, the key outside the two key
    paths is gone. *)
Lemma hard_error_drops_other_keys :
  ObserveCloudProviderNames gateEvaluator apiServerObserver
    (InfrastructureListers unreachableCluster) priorWithExtraKey noWorld
  = (Returned (Some (apiServerArguments {[ "cloud-provider" := slice "aws" ]}),
               ["connection refused"]), noWorld) /\
  Some (apiServerArguments {[ "cloud-provider" := slice "aws" ]}) <> priorWithExtraKey.
Proof.
  split; first by vm_compute.
  intros H.
  apply (f_equal (fun o : option (gmap string value) =>
                    match o with Some m => m !! "servingInfo" | None => None end)) in H.
  vm_compute in H. discriminate H.
Qed.



Lemma Observe_only_configured_paths_witness :
  unstructured.NestedFieldNoCopy awsObserved ["apiServerArguments"; "cloud-config"]
  = unstructured.Present (slice (cloudProviderConfFilePath "config")) /\
  (["apiServerArguments"; "cloud-config"]
     `prefix_of` cloudProviderConfigPath apiServerObserver \/
   cloudProviderConfigPath apiServerObserver
     `prefix_of` ["apiServerArguments"; "cloud-config"] \/
   ["apiServerArguments"; "cloud-config"]
     `prefix_of` cloudProviderNamePath apiServerObserver \/
   cloudProviderNamePath apiServerObserver
     `prefix_of` ["apiServerArguments"; "cloud-config"]).
Proof.
  split; first by vm_compute.
  apply (Observe_only_configured_paths gateEvaluator apiServerObserver
           (InfrastructureListers awsCluster) None noWorld _ _ _ awsCluster_run
           ["apiServerArguments"; "cloud-config"]
           (slice (cloudProviderConfFilePath "config"))).
  by vm_compute.
Defined.

Lemma provider_off_allow_list_has_no_source_witness :
  exists cfg errs w',
    ObserveCloudProviderNames gateEvaluator apiServerObserver
      (InfrastructureListers bareMetalManagedCluster) None noWorld
    = (Returned (cfg, errs), w') /\
    synced w' = (synced noWorld ++
      [request (destinationOf apiServerObserver)
         resourcesynccontroller.emptyLocation])%list /\
    (forall e, e ∈ recorded w' -> e ∈ recorded noWorld \/ ~ isChange e) /\
    (ResourceSyncer_SyncConfigMap bareMetalManagedCluster
       (destinationOf apiServerObserver) resourcesynccontroller.emptyLocation = None ->
     errs = [] /\
     forall key,
       unstructured.NestedStringSlice cfg (cloudProviderConfigPath apiServerObserver)
       <> unstructured.Present [cloudProviderConfFilePath key]).
Proof.
  apply (provider_off_allow_list_has_no_source gateEvaluator apiServerObserver
           bareMetalManagedCluster None noWorld
           (infrastructureOf "BareMetal" "cloud-provider-config" "config") false "");
    done.
Defined.

Lemma external_mode_keeps_cloud_config_witness :
  exists cfg errs w',
    ObserveCloudProviderNames gateEvaluator apiServerObserver
      (InfrastructureListers awsExternalCluster) None noWorld
    = (Returned (cfg, errs), w') /\
    synced w' = (synced noWorld ++
      [request (destinationOf apiServerObserver)
         (location configNamespace "cloud-provider-config")])%list /\
    (ResourceSyncer_SyncConfigMap awsExternalCluster (destinationOf apiServerObserver)
       (location configNamespace "cloud-provider-config") = None ->
     unstructured.NestedStringSlice cfg (cloudProviderConfigPath apiServerObserver)
     = unstructured.Present [cloudProviderConfFilePath "config"] /\
     unstructured.NestedStringSlice cfg (cloudProviderNamePath apiServerObserver)
     = unstructured.Present ["external"]).
Proof.
  apply (external_mode_keeps_cloud_config gateEvaluator apiServerObserver
           awsExternalCluster None noWorld
           (infrastructureOf "AWS" "cloud-provider-config" "config") "aws");
    [apply apiServerObserver_independent|reflexivity|reflexivity|reflexivity
    |by vm_compute|reflexivity|discriminate].
Defined.

(** C5 is false as stated: an external-mode AWS cluster without a cloud-config
    reference and without the managed config-map gets the empty sync source
    and no config-file path. *)
Lemma external_mode_without_cloud_config :
  IsCloudProviderExternal gateEvaluator awsExternalBareCluster
    (configv1.PlatformStatus_ (configv1.Status (infrastructureOf "AWS" "" "")))
  = (true, None) /\
  GetPlatformName "AWS" noWorld = (Returned "aws", noWorld) /\
  ObserveCloudProviderNames gateEvaluator apiServerObserver
    (InfrastructureListers awsExternalBareCluster) None noWorld
  = (Returned (Some (apiServerArguments {[ "cloud-provider" := slice "external" ]}), []),
     {| recorded := [];
        synced := [request (destinationOf apiServerObserver)
                     resourcesynccontroller.emptyLocation] |}) /\
  unstructured.NestedStringSlice
    (Some (apiServerArguments {[ "cloud-provider" := slice "external" ]}))
    (cloudProviderConfigPath apiServerObserver) = unstructured.Absent.
Proof. split_and!; by vm_compute. Qed.

Lemma infrastructure_not_found_is_empty_witness :
  ObserveCloudProviderNames gateEvaluator apiServerObserver
    (InfrastructureListers emptyCluster) priorWithExtraKey noWorld =
  (Returned (Some ∅, []),
   {| recorded := recorded noWorld ++
        [warning "ObserveCloudProviderNames"
           "Required infrastructures.config.openshift.io/cluster not found"];
      synced := synced noWorld |}).
Proof. apply infrastructure_not_found_is_empty; [done|done|reflexivity]. Defined.

Lemma GetPlatformName_documented_witness :
  GetPlatformName "EquinixMetal" noWorld
  = (Returned "", recording noWorld [unrecognizedPlatformWarning]).
Proof.
  apply (GetPlatformName_documented noWorld); first discriminate.
  unfold configv1.definedPlatformTypes.
  repeat (apply not_elem_of_cons; split; first discriminate).
  apply not_elem_of_nil.
Defined.

Lemma managed_config_map_preferred_witness :
  exists cfg errs w',
    ObserveCloudProviderNames gateEvaluator apiServerObserver
      (InfrastructureListers awsManagedCluster) None noWorld
    = (Returned (cfg, errs), w') /\
    synced w' = [request (destinationOf apiServerObserver)
                   (location machineSpecifiedConfigNamespace machineSpecifiedConfig)] /\
    unstructured.NestedStringSlice cfg (cloudProviderConfigPath apiServerObserver)
    = unstructured.Present [cloudProviderConfFilePath "cloud.conf"].
Proof.
  destruct (managed_config_map_preferred gateEvaluator apiServerObserver
              awsManagedCluster None noWorld
              (infrastructureOf "AWS" "cloud-provider-config" "config") false "aws"
              apiServerObserver_independent eq_refl eq_refl eq_refl
              ltac:(by vm_compute))
    as (cfg & errs & w' & Hrun & Hmanaged & _).
  destruct (Hmanaged _ eq_refl) as [Hsync Hfile].
  exists cfg, errs, w'. split; first exact Hrun. split; first exact Hsync.
  apply Hfile. reflexivity.
Defined.

(** C8 is false as stated: on a bare-metal cluster the managed config-map
    exists and still the sync source is the empty location. *)
Lemma managed_config_map_off_allow_list :
  ConfigMapLister_Get bareMetalManagedCluster machineSpecifiedConfigNamespace
    machineSpecifiedConfig = Got {| corev1.Data := ∅ |} /\
  ObserveCloudProviderNames gateEvaluator apiServerObserver
    (InfrastructureListers bareMetalManagedCluster) None noWorld
  = (Returned (Some ∅, []),
     {| recorded := [];
        synced := [request (destinationOf apiServerObserver)
                     resourcesynccontroller.emptyLocation] |}) /\
  resourcesynccontroller.emptyLocation
  <> location machineSpecifiedConfigNamespace machineSpecifiedConfig.
Proof. split_and!; by vm_compute. Qed.

Lemma Observe_idempotent_witness :
  exists errs2 evs reqs,
    ObserveCloudProviderNames gateEvaluator apiServerObserver
      (InfrastructureListers awsCluster) awsObserved noWorld
    = (Returned (awsObserved, errs2), extend noWorld evs reqs) /\
    Forall (fun e => ~ isChange e) evs.
Proof.
  exact (Observe_idempotent gateEvaluator apiServerObserver
           (InfrastructureListers awsCluster) None noWorld _ _ _ noWorld
           awsCluster_run).
Defined.

Lemma Observe_never_both_providers_witness :
  unstructured.NestedStringSlice awsObserved (cloudProviderNamePath apiServerObserver)
  = unstructured.Present ["aws"] /\
  ~ bothProviders ["aws"].
Proof.
  split; first by vm_compute.
  apply (Observe_never_both_providers gateEvaluator apiServerObserver
           (InfrastructureListers awsCluster) None noWorld _ _ _ awsCluster_run).
  - left. intros l Hl. vm_compute in Hl. discriminate Hl.
  - by vm_compute.
Defined.

(** C10 is false as stated: on a failed infrastructure lookup a prior
    configuration that holds both the external marker and an in-tree provider
    at the provider-name path is returned as it is. *)
Lemma hard_error_returns_both_providers :
  ObserveCloudProviderNames gateEvaluator apiServerObserver
    (InfrastructureListers unreachableCluster) priorWithBothProviders noWorld
  = (Returned (priorWithBothProviders, ["connection refused"]), noWorld) /\
  unstructured.NestedStringSlice priorWithBothProviders
    (cloudProviderNamePath apiServerObserver)
  = unstructured.Present ["external"; "aws"] /\
  bothProviders ["external"; "aws"].
Proof.
  split_and!; try by vm_compute.
  split; first by apply list_elem_of_here.
  exists "aws". split_and!; [|discriminate|discriminate].
  apply list_elem_of_further, list_elem_of_here.
Qed.

(** * The further properties at the scenarios *)

Lemma unreachableCluster_run :
  ObserveCloudProviderNames gateEvaluator apiServerObserver
    (InfrastructureListers unreachableCluster) priorWithExtraKey noWorld
  = (Returned (Some (apiServerArguments {[ "cloud-provider" := slice "aws" ]}),
               ["connection refused"]), noWorld).
Proof. by vm_compute. Qed.

Lemma NewCloudProviderObserver_syncs_to_target_witness :
  synced awsWorld = synced noWorld \/
  exists source,
    synced awsWorld = (synced noWorld ++
      [request (location "openshift-kube-apiserver" "cloud-config") source])%list /\
    usableSource source.
Proof.
  exact (NewCloudProviderObserver_syncs_to_target gateEvaluator
           "openshift-kube-apiserver"
           ["apiServerArguments"; "cloud-provider"]
           ["apiServerArguments"; "cloud-config"]
           (InfrastructureListers awsCluster) None noWorld _ _ awsCluster_run).
Defined.

Lemma Observe_records_at_most_two_witness :
  exists warns changes,
    recorded awsWorld = (recorded noWorld ++ warns ++ changes)%list /\
    Forall isWarning warns /\ Forall changeNotice changes /\
    (length changes <= 1)%nat /\ (length (warns ++ changes) <= 2)%nat.
Proof.
  exact (Observe_records_at_most_two gateEvaluator apiServerObserver
           (InfrastructureListers awsCluster) None noWorld _ _ awsCluster_run).
Defined.

Lemma Observe_at_most_one_error_witness :
  (length ["connection refused"] <= 1)%nat.
Proof.
  exact (Observe_at_most_one_error gateEvaluator apiServerObserver
           (InfrastructureListers unreachableCluster) priorWithExtraKey noWorld
           _ _ _ unreachableCluster_run).
Defined.

Lemma sync_requested_iff_witness :
  (exists source,
     synced (ObserveCloudProviderNames gateEvaluator apiServerObserver
               (InfrastructureListers awsCluster) None noWorld).2
     = (synced noWorld ++ [request (destinationOf apiServerObserver) source])%list) <->
  (exists infrastructure external,
     InfrastructureLister_Get awsCluster "cluster" = Got infrastructure /\
     IsCloudProviderExternal gateEvaluator awsCluster
       (configv1.PlatformStatus_ (configv1.Status infrastructure))
       = (external, None) /\
     forall err, ConfigMapLister_Get awsCluster machineSpecifiedConfigNamespace
                   machineSpecifiedConfig <> ErrOther err).
Proof. apply sync_requested_iff. done. Defined.

Lemma Observe_without_error_ignores_prior_witness :
  exists errs2 w2' reqs,
    ObserveCloudProviderNames gateEvaluator apiServerObserver
      (InfrastructureListers awsCluster) priorWithStringConfig noWorld
    = (Returned (awsObserved, errs2), w2') /\
    synced awsWorld = (synced noWorld ++ reqs)%list /\
    synced w2' = (synced noWorld ++ reqs)%list /\
    (errs2 = [] \/
     exists err,
       unstructured.NestedStringSlice priorWithStringConfig
         (cloudProviderConfigPath apiServerObserver) = unstructured.Invalid err /\
       errs2 = [err]).
Proof.
  exact (Observe_without_error_ignores_prior gateEvaluator apiServerObserver
           (InfrastructureListers awsCluster) None noWorld _ _
           priorWithStringConfig noWorld awsCluster_run).
Defined.

Lemma prior_read_decides_change_event_witness :
  exists cfg errs w',
    ObserveCloudProviderNames gateEvaluator apiServerObserver
      (InfrastructureListers awsCluster) priorWithStringConfig noWorld
    = (Returned (cfg, errs), w') /\
    unstructured.NestedStringSlice cfg (cloudProviderConfigPath apiServerObserver)
    = unstructured.Present [cloudProviderConfFilePath "config"] /\
    match unstructured.NestedStringSlice priorWithStringConfig
            (cloudProviderConfigPath apiServerObserver) with
    | unstructured.Present l =>
        errs = [] /\
        recorded w' = (recorded noWorld ++
          if bool_decide (l = [cloudProviderConfFilePath "config"]) then []
          else [changeEvent (cloudProviderConfFilePath "config")])%list
    | unstructured.Absent =>
        errs = [] /\
        recorded w' = (recorded noWorld ++
          [changeEvent (cloudProviderConfFilePath "config")])%list
    | unstructured.Invalid err =>
        errs = [err] /\
        recorded w' = (recorded noWorld ++
          [changeEvent (cloudProviderConfFilePath "config")])%list
    end.
Proof.
  apply (prior_read_decides_change_event gateEvaluator apiServerObserver awsCluster
           priorWithStringConfig noWorld
           (infrastructureOf "AWS" "cloud-provider-config" "config") false "aws"
           "cloud-provider-config" configNamespace "config");
    [apply apiServerObserver_independent|reflexivity|reflexivity|reflexivity
    |reflexivity|by vm_compute|discriminate|reflexivity].
Defined.

Lemma external_check_failure_is_reported_witness :
  exists cfg,
    ObserveCloudProviderNames gateEvaluator apiServerObserver
      (InfrastructureListers gatelessCluster) priorWithExtraKey noWorld
    = (Returned (cfg, [fetchFailure "connection refused"]),
       recording noWorld [externalStateWarning (fetchFailure "connection refused")]) /\
    configobserver.Pruned priorWithExtraKey
      [cloudProviderConfigPath apiServerObserver; cloudProviderNamePath apiServerObserver]
    = Returned cfg.
Proof.
  apply (external_check_failure_is_reported gateEvaluator apiServerObserver
           gatelessCluster priorWithExtraKey noWorld
           (infrastructureOf "AWS" "cloud-provider-config" "config")
           "connection refused");
    [done|done|reflexivity|left; split; reflexivity].
Defined.

Lemma provider_name_without_source_witness :
  exists cfg w',
    ObserveCloudProviderNames gateEvaluator apiServerObserver
      (InfrastructureListers bareMetalExternalCluster) None noWorld
    = (Returned (Some cfg, []), w') /\
    unstructured.NestedFieldNoCopy (Some cfg) (cloudProviderConfigPath apiServerObserver)
    <> unstructured.Present (slice (cloudProviderConfFilePath "")) /\
    if true || negb (String.eqb "" "") then
      unstructured.NestedStringSlice (Some cfg) (cloudProviderNamePath apiServerObserver)
      = unstructured.Present [writtenName true ""]
    else cfg = ∅.
Proof.
  apply (provider_name_without_source gateEvaluator apiServerObserver
           bareMetalExternalCluster None noWorld (infrastructureOf "BareMetal" "" "")
           true "" "" configNamespace "");
    [done|done|reflexivity|reflexivity|reflexivity|reflexivity|by right|reflexivity].
Defined.

Lemma config_path_below_name_path_fails_witness :
  exists cfg err,
    ObserveCloudProviderNames gateEvaluator nestedObserver
      (InfrastructureListers awsCluster) None noWorld
    = (Returned (cfg, [err]),
       {| recorded := recorded noWorld ++ [failedSettingWarning err];
          synced := synced noWorld ++
            [request (destinationOf nestedObserver)
               (location configNamespace "cloud-provider-config")] |}) /\
    configobserver.Pruned None
      [cloudProviderConfigPath nestedObserver; cloudProviderNamePath nestedObserver]
    = Returned cfg.
Proof.
  apply (config_path_below_name_path_fails gateEvaluator nestedObserver awsCluster
           None noWorld (infrastructureOf "AWS" "cloud-provider-config" "config")
           false "aws" "cloud-provider-config" configNamespace "config" ["config"]);
    [done|done|reflexivity|reflexivity|reflexivity|reflexivity|reflexivity
    |by vm_compute|discriminate|reflexivity].
Defined.

Lemma config_path_above_name_path_wins_witness :
  exists cfg errs w',
    ObserveCloudProviderNames gateEvaluator sharedPathObserver
      (InfrastructureListers awsCluster) None noWorld = (Returned (cfg, errs), w') /\
    unstructured.NestedStringSlice cfg (cloudProviderConfigPath sharedPathObserver)
    = unstructured.Present [cloudProviderConfFilePath "config"] /\
    unstructured.NestedStringSlice cfg (cloudProviderNamePath sharedPathObserver)
    <> unstructured.Present [writtenName false "aws"].
Proof.
  apply (config_path_above_name_path_wins gateEvaluator sharedPathObserver awsCluster
           None noWorld (infrastructureOf "AWS" "cloud-provider-config" "config")
           false "aws" "cloud-provider-config" configNamespace "config" []);
    [done|reflexivity|reflexivity|reflexivity|reflexivity|reflexivity
    |by vm_compute|discriminate|reflexivity].
Defined.

Lemma empty_name_path_panics_witness :
  ObserveCloudProviderNames gateEvaluator namelessObserver
    (InfrastructureListers awsCluster) None noWorld
  = (Panicked "slice bounds out of range [:-1]",
     (GetPlatformName
        (configv1.Platform
           (configv1.Status (infrastructureOf "AWS" "cloud-provider-config" "config")))
        noWorld).2).
Proof.
  apply (empty_name_path_panics gateEvaluator namelessObserver awsCluster None noWorld
           (infrastructureOf "AWS" "cloud-provider-config" "config") false "aws");
    [reflexivity|reflexivity|reflexivity|reflexivity|right; discriminate].
Defined.

Lemma empty_config_path_panics_witness :
  ObserveCloudProviderNames gateEvaluator filelessObserver
    (InfrastructureListers awsCluster) None noWorld
  = (Panicked "slice bounds out of range [:-1]",
     {| recorded := recorded noWorld;
        synced := synced noWorld ++
          [request (destinationOf filelessObserver)
             (location configNamespace "cloud-provider-config")] |}).
Proof.
  apply (empty_config_path_panics gateEvaluator filelessObserver awsCluster None
           noWorld (infrastructureOf "AWS" "cloud-provider-config" "config")
           false "aws" "cloud-provider-config" configNamespace "config");
    [reflexivity|done|reflexivity|reflexivity|reflexivity|reflexivity
    |by vm_compute|discriminate|reflexivity].
Defined.
